(** * Column plugin for Osdag: registration and deactivation

    A shallow embedding of [column_plugin/plugin.py] (class [ColumnPlugin])
    and the properties of its registry handling.

    The plugin works on live host objects: Python lists, dicts, functions
    and widget instances.  They are modelled as a store of objects indexed
    by identity ([loc] plays the role of [id(obj)]); the registry list is a
    shared mutable object of that store and is updated in place.

    Modelling conventions:
    - a host callable (a Qt method, a refresh method of the main window,
      a widget class) is known by the result it gives on its arguments;
      every call into the host is appended to a trace, so that what the
      plugin asks of the toolkit is observable.  What the toolkit does to
      its own widgets on such a call is not interpreted;
    - [QObject.children()] is the structural field [kids] of an instance;
    - builtin values expose none of the attribute names the plugin probes;
    - a class handed to the toolkit ([QRadioButton], [QButtonGroup],
      [QGridLayout]) is passed by its name; a class of the host is a
      callable object like any other;
    - the interpreter's recursion limit is not modelled. *)

From stdpp Require Import gmap strings list fin_maps fin_sets.

Set Warnings "-register-all,-clear-no-such-hyp".
Open Scope string_scope.
Open Scope list_scope.
Open Scope nat_scope.

(** ** Values and objects *)

Definition loc := nat.

Inductive exn : Type :=
| AttributeError (attr : string)
| TypeError (what : string)
| IndexError
| KeyError (key : string)
| ImportError (name : string)
| RecursionError
| HostError (msg : string).

Inductive res (A : Type) : Type :=
| Ret (a : A)
| Raise (e : exn).
Arguments Ret {A} a.
Arguments Raise {A} e.

Inductive value : Type :=
| VNone
| VInt (n : Z)
| VStr (s : string)
| VTuple (items : list value)
| VRef (l : loc).

Record instance : Type := Instance {
  cls_name : string;                 (* __class__.__name__ *)
  attrs : gmap string value;         (* what hasattr / getattr see *)
  kids : option (list loc)           (* children(); None: no such method *)
}.

Inductive obj : Type :=
| OList (items : list value)
| ODict (entries : gmap string value)
| OFunc (call : list value → res value)
| OInst (i : instance).

Abbreviation heap := (gmap loc obj).

(** ** Python primitives over the store *)

Definition py_is_none (v : value) : bool :=
  match v with VNone => true | _ => false end.

Definition py_is_str (k : string) (v : value) : bool :=
  match v with VStr s => bool_decide (s = k) | _ => false end.

Definition is_nil {A} (l : list A) : bool :=
  match l with [] => true | _ => false end.

(* bool(v): None, 0, the empty string, tuple, list and dict are false. *)
Definition py_truthy (h : heap) (v : value) : bool :=
  match v with
  | VNone => false
  | VInt n => negb (n =? 0)%Z
  | VStr s => negb (bool_decide (s = ""))
  | VTuple items => negb (is_nil items)
  | VRef l =>
      match h !! l with
      | Some (OList items) => negb (is_nil items)
      | Some (ODict d) => negb (is_nil (map_to_list d))
      | _ => true
      end
  end.

Definition py_instance (h : heap) (v : value) : option instance :=
  match v with
  | VRef l => match h !! l with Some (OInst i) => Some i | _ => None end
  | _ => None
  end.

Definition hasattr (h : heap) (v : value) (name : string) : bool :=
  match py_instance h v with
  | Some i => bool_decide (is_Some (attrs i !! name))
  | None => false
  end.

Definition getattr (h : heap) (v : value) (name : string) : res value :=
  match py_instance h v with
  | Some i =>
      match attrs i !! name with
      | Some a => Ret a
      | None => Raise (AttributeError name)
      end
  | None => Raise (AttributeError name)
  end.

Definition py_callable (h : heap) (v : value) : bool :=
  match v with
  | VRef l => match h !! l with Some (OFunc _) => true | _ => false end
  | _ => false
  end.

Definition class_name (h : heap) (v : value) : string :=
  match v with
  | VNone => "NoneType"
  | VInt _ => "int"
  | VStr _ => "str"
  | VTuple _ => "tuple"
  | VRef l =>
      match h !! l with
      | Some (OList _) => "list"
      | Some (ODict _) => "dict"
      | Some (OFunc _) => "function"
      | Some (OInst i) => cls_name i
      | None => "object"
      end
  end.

Definition is_substring (k s : string) : bool :=
  match String.index 0 k s with Some _ => true | None => false end.

(* k in v, for a string k *)
Definition py_contains (h : heap) (k : string) (v : value) : res bool :=
  match v with
  | VStr s => Ret (is_substring k s)
  | VTuple items => Ret (existsb (py_is_str k) items)
  | VRef l =>
      match h !! l with
      | Some (OList items) => Ret (existsb (py_is_str k) items)
      | Some (ODict d) => Ret (bool_decide (is_Some (d !! k)))
      | _ => Raise (TypeError "argument is not iterable")
      end
  | _ => Raise (TypeError "argument is not iterable")
  end.

(* v[k], for a string k *)
Definition py_getitem (h : heap) (v : value) (k : string) : res value :=
  match v with
  | VRef l =>
      match h !! l with
      | Some (ODict d) =>
          match d !! k with Some x => Ret x | None => Raise (KeyError k) end
      | _ => Raise (TypeError "indices must be integers")
      end
  | _ => Raise (TypeError "indices must be integers")
  end.

(* list(v.keys()) *)
Definition py_keys (h : heap) (v : value) : res (list string) :=
  match v with
  | VRef l =>
      match h !! l with
      | Some (ODict d) => Ret (map fst (map_to_list d))
      | _ => Raise (AttributeError "keys")
      end
  | _ => Raise (AttributeError "keys")
  end.

(* isinstance(v, list), giving the items *)
Definition py_list (h : heap) (v : value) : option (loc * list value) :=
  match v with
  | VRef l => match h !! l with Some (OList items) => Some (l, items) | _ => None end
  | _ => None
  end.

(* dir(v): the attribute names of an instance *)
Definition py_dir (h : heap) (v : value) : list string :=
  match py_instance h v with
  | Some i => map fst (map_to_list (attrs i))
  | None => []
  end.

(* the elements of a sized sequence: tuple, list, str or dict *)
Definition py_elems (h : heap) (v : value) : res (list value) :=
  match v with
  | VStr s => Ret (map (λ c, VStr (String c "")) (String.list_ascii_of_string s))
  | VTuple items => Ret items
  | VRef l =>
      match h !! l with
      | Some (OList items) => Ret items
      | Some (ODict d) => Ret (map (λ kv, VStr kv.1) (map_to_list d))
      | _ => Raise (TypeError "object has no len()")
      end
  | _ => Raise (TypeError "object has no len()")
  end.

(* v[0] *)
Definition py_first (h : heap) (v : value) : res value :=
  match v with
  | VStr s =>
      match s with
      | String c _ => Ret (VStr (String c ""))
      | EmptyString => Raise IndexError
      end
  | VTuple items =>
      match items with x :: _ => Ret x | [] => Raise IndexError end
  | VRef l =>
      match h !! l with
      | Some (OList items) =>
          match items with x :: _ => Ret x | [] => Raise IndexError end
      | Some (ODict d) => Raise (KeyError "0")
      | _ => Raise (TypeError "object is not subscriptable")
      end
  | _ => Raise (TypeError "object is not subscriptable")
  end.

(** ** Locating the main window and the registry *)

Definition top_widget_match (h : heap) (widget : loc) : option value :=
  let w := VRef widget in
  if hasattr h w "Modules" then Some w
  else if hasattr h w "ui" then
    match getattr h w "ui" with
    | Ret ui =>
        if hasattr h ui "Modules" then Some ui
        else if hasattr h ui "myStackedWidget" then
          if hasattr h w "Modules" then Some w else None
        else None
    | Raise _ => None
    end
  else None.

Fixpoint first_match {A B} (f : A → option B) (l : list A) : option B :=
  match l with
  | [] => None
  | x :: rest =>
      match f x with
      | Some y => Some y
      | None => first_match f rest
      end
  end.

Definition find_main_window (h : heap) (top_level : list loc) : value :=
  match first_match (top_widget_match h) top_level with
  | Some w => w
  | None =>
      match first_match
              (λ widget, if bool_decide (class_name h (VRef widget) = "OsdagMainWindow")
                         then Some (VRef widget) else None) top_level with
      | Some w => w
      | None => VNone
      end
  end.

(* widget.children() *)
Definition children (h : heap) (widget : value) : res (list loc) :=
  match py_instance h widget with
  | Some i =>
      match kids i with
      | Some cs => Ret cs
      | None => Raise (AttributeError "children")
      end
  | None => Raise (AttributeError "children")
  end.

(* (widget, widget.Modules) *)
Definition with_modules (h : heap) (widget : value) : res (value * value) :=
  match getattr h widget "Modules" with
  | Ret m => Ret (widget, m)
  | Raise e => Raise e
  end.

Definition search_result : Type := option (res (value * value) * gset loc).

(* for child in widget.children(): the loop of search_for_modules, over the
   recursive call [search] *)
Fixpoint search_children (search : value → gset loc → search_result)
    (cs : list loc) (visited : gset loc) : search_result :=
  match cs with
  | [] => Some (Ret (VNone, VNone), visited)
  | child :: rest =>
      match search (VRef child) visited with
      | None => None
      | Some (Raise e, visited') => Some (Raise e, visited')
      | Some (Ret result, visited') =>
          if py_is_none result.1 then search_children search rest visited'
          else Some (Ret result, visited')
      end
  end.

(* The nested function of _find_modules_dict.  The visited set is one
   shared Python set: it is threaded through the calls and returned.
   [None] is running out of fuel. *)
Fixpoint search_for_modules (fuel : nat) (h : heap) (widget : value)
    (visited : gset loc) : search_result :=
  match fuel with
  | 0 => None
  | S fuel' =>
      match widget with
      | VRef l =>
          if decide (l ∈ visited) then Some (Ret (VNone, VNone), visited)
          else
            let visited := {[l]} ∪ visited in
            if hasattr h widget "Modules" then Some (with_modules h widget, visited)
            else
              match children h widget with
              | Raise e => Some (Raise e, visited)
              | Ret cs => search_children (search_for_modules fuel' h) cs visited
              end
      | _ =>
          (* None, a number, a string, a tuple: no attribute Modules and
             no method children *)
          Some (Raise (AttributeError "children"), visited)
      end
  end.

Definition _find_modules_dict (h : heap) (window_obj : value) : res (value * value) :=
  if hasattr h window_obj "Modules" then with_modules h window_obj
  else
    let via_ui :=
      if hasattr h window_obj "ui" then
        match getattr h window_obj "ui" with
        | Ret ui => if hasattr h ui "Modules" then Some (with_modules h ui) else None
        | Raise e => Some (Raise e)
        end
      else None in
    match via_ui with
    | Some r => r
    | None =>
        match search_for_modules (S (size h)) h window_obj ∅ with
        | Some (r, _) => r
        | None => Raise RecursionError
        end
    end.

(** ** Effects: standard output, calls into the host, exceptions *)

Inductive arg : Type :=
| AVal (v : value)
| AStr (s : string)
| ANat (n : nat)
| AStrs (l : list string)
| AExn (e : exn).

(* one print: the literal text of the message and what is formatted in *)
Record line : Type := Line { text : string; fmt_args : list arg }.

(* one call into the host: receiver (or the callable itself), method
   name, arguments *)
Record call_event : Type :=
  Call { target : value; method : string; call_args : list value }.

Record io : Type := IO {
  stdout : list line;
  stderr : list exn;            (* traceback.print_exc() *)
  host_calls : list call_event
}.

(* what the plugin reads from its installation and from the interpreter *)
Record world : Type := World {
  top_level : list loc;                 (* QApplication.topLevelWidgets() *)
  osdag_image : res string;             (* str(files(..).joinpath(..)) *)
  plugin_dir : string;                  (* dirname(abspath(__file__)) *)
  plugin_root : string;                 (* dirname of plugin_dir *)
  import_ColumnDesign : option exn;     (* None: the import succeeds *)
  import_Submodule_Widget : res value   (* the imported class *)
}.

(* Code that reads the store and only prints and calls the host. *)
Definition G (A : Type) : Type := io → res A * io.

#[export] Instance G_ret : MRet G := λ A a o, (Ret a, o).
#[export] Instance G_bind : MBind G := λ A B f m o,
  match m o with
  | (Ret a, o') => f a o'
  | (Raise e, o') => (Raise e, o')
  end.

Definition g_raise {A} (e : exn) : G A := λ o, (Raise e, o).

Definition g_lift {A} (r : res A) : G A := λ o, (r, o).

(* try: m  except Exception as e: handler e *)
Definition g_try {A} (m : G A) (handler : exn → G A) : G A := λ o,
  match m o with
  | (Ret a, o') => (Ret a, o')
  | (Raise e, o') => handler e o'
  end.

Definition print (t : string) (a : list arg) : G unit := λ o,
  (Ret tt, IO (stdout o ++ [Line t a]) (stderr o) (host_calls o)).

Definition print_exc (e : exn) : G unit := λ o,
  (Ret tt, IO (stdout o) (stderr o ++ [e]) (host_calls o)).

(* calling f on args, f having been read from [recv.name] *)
Definition invoke (h : heap) (recv : value) (name : string) (f : value)
    (args : list value) : G value := λ o,
  match f with
  | VRef l =>
      match h !! l with
      | Some (OFunc call) =>
          (call args, IO (stdout o) (stderr o) (host_calls o ++ [Call recv name args]))
      | _ => (Raise (TypeError "object is not callable"), o)
      end
  | _ => (Raise (TypeError "object is not callable"), o)
  end.

(* the method call recv.name on args *)
Definition call_method (h : heap) (recv : value) (name : string)
    (args : list value) : G value :=
  f ← g_lift (getattr h recv name);
  invoke h recv name f args.

(* hasattr(v, a) and hasattr(v.a, b) *)
Definition has_path (h : heap) (v : value) (a b : string) : bool :=
  hasattr h v a &&
  match getattr h v a with
  | Ret u => hasattr h u b
  | Raise _ => false
  end.

(* v.a.b *)
Definition get_path (h : heap) (v : value) (a b : string) : res value :=
  match getattr h v a with
  | Ret u => getattr h u b
  | Raise e => Raise e
  end.

(* for x in l: body x -- where body may return from the function *)
Fixpoint g_for {A B} (l : list A) (body : A → G (option B)) : G (option B) :=
  match l with
  | [] => mret None
  | x :: rest =>
      r ← body x;
      match r with
      | Some b => mret (Some b)
      | None => g_for rest body
      end
  end.

(* range(n) for the value n *)
Definition py_range (n : value) : res (list nat) :=
  match n with
  | VInt z => Ret (seq 0 (Z.to_nat z))
  | _ => Raise (TypeError "object cannot be interpreted as an integer")
  end.

Definition column_entry (image_path : string) : value :=
  VTuple [VStr "Axially Loaded Column"; VStr image_path; VStr "Column_Design"].

Definition os_path_join (parts : list string) : string :=
  String.concat "/" parts.

Definition get_image_path (W : world) (image_name : string) : G string :=
  g_try (g_lift (osdag_image W))
        (λ e,
           print "Error loading image from Osdag resources: {e}" [AExn e];;
           mret (os_path_join [plugin_dir W; "column"; "resources"; image_name])).

(** ** The live patch of the widget tree *)

Section LiveUI.
Variable W : world.
Variable h : heap.

(* removing an existing Column_Design button (register side) *)
Definition remove_existing_column (page column_button : value) : G unit :=
  if py_is_none column_button then mret tt
  else
    column_widget ← call_method h column_button "parent" [];
    if py_is_none column_widget then mret tt
    else
      print "Removing existing Column button widget" [];;
      if has_path h page "ui" "gridLayout" then
        grid ← g_lift (get_path h page "ui" "gridLayout");
        call_method h grid "removeWidget" [column_widget];;
        call_method h column_widget "deleteLater" [];;
        mret tt
      else mret tt.

(* the inner try block: build the widget and put it in the grid *)
Definition build_column_widget (page strut_button grid_layout : value)
    : G (option bool) :=
  image_path ← g_lift (osdag_image W);
  Submodule_Widget ← g_lift (import_Submodule_Widget W);
  let module_tuple := column_entry image_path in
  widget ← invoke h Submodule_Widget "" Submodule_Widget [module_tuple; page];
  button_groups ← call_method h page "findChildren" [VStr "QButtonGroup"];
  (if py_truthy h button_groups then
     button_group ← g_lift (py_first h button_groups);
     addButton ← g_lift (getattr h button_group "addButton");
     rdbtn ← g_lift (getattr h widget "rdbtn");
     invoke h button_group "addButton" addButton [rdbtn];;
     mret tt
   else mret tt);;
  call_method h grid_layout "addWidget" [widget; VInt 0; VInt 0];;
  (if py_is_none strut_button then mret tt
   else
     strut_widget ← call_method h strut_button "parent" [];
     if py_is_none strut_widget then mret tt
     else
       call_method h grid_layout "removeWidget" [strut_widget];;
       call_method h grid_layout "addWidget" [strut_widget; VInt 0; VInt 1];;
       mret tt);;
  print "Successfully rebuilt UI with Column module" [];;
  mret (Some true).

(* one turn of the loop over the pages of the stacked widget;
   [Some b]: the function returns b *)
Definition update_page (stack : value) (i : nat) : G (option bool) :=
  page ← call_method h stack "widget" [VInt (Z.of_nat i)];
  if py_is_none page then mret None
  else
    print "Found page at index {i}: {page.__class__.__name__}"
          [ANat i; AStr (class_name h page)];;
    if negb (hasattr h page "findChild") then mret None
    else
      strut_button ← call_method h page "findChild"
                       [VStr "QRadioButton"; VStr "Strut_Design"];
      if py_is_none strut_button then mret None
      else
        print "Found Compression Member page at index {i}" [ANat i];;
        column_button ← call_method h page "findChild"
                          [VStr "QRadioButton"; VStr "Column_Design"];
        remove_existing_column page column_button;;
        if has_path h page "ui" "gridLayout" then
          grid_layout ← g_lift (get_path h page "ui" "gridLayout");
          print "Found gridLayout in page" [];;
          g_try (build_column_widget page strut_button grid_layout)
                (λ e,
                   print "Error creating widget: {str(e)}" [AExn e];;
                   print_exc e;;
                   mret None)
        else
          print "Could not find gridLayout in page" [];;
          grid_layouts ← call_method h page "findChildren" [VStr "QGridLayout"];
          if py_truthy h grid_layouts then
            elems ← g_lift (py_elems h grid_layouts);
            print "Found {len(grid_layouts)} grid layouts through findChildren"
                  [ANat (length elems)];;
            _ ← g_lift (py_first h grid_layouts);
            mret None
          else
            print "Could not find any grid layouts in the page" [];;
            mret None.

Definition refresh_methods : list string :=
  ["initialize_module_buttons"; "refresh_module_list";
   "setup_module_buttons"; "update_ui"].

(* Method 2: the loop over the refresh methods, giving ui_updated *)
Fixpoint call_refresh_methods (window_obj : value) (names : list string)
    (ui_updated : bool) : G bool :=
  match names with
  | [] => mret ui_updated
  | method_name :: rest =>
      updated ←
        (if hasattr h window_obj method_name
            && match getattr h window_obj method_name with
               | Ret f => py_callable h f
               | Raise _ => false
               end
         then
           g_try (print "Calling {method_name} on main window..." [AStr method_name];;
                  call_method h window_obj method_name [];;
                  print "Successfully called {method_name}" [AStr method_name];;
                  mret true)
                 (λ e,
                    print "Error calling {method_name}: {e}" [AStr method_name; AExn e];;
                    mret ui_updated)
         else mret ui_updated);
      call_refresh_methods window_obj rest updated
  end.

(* Method 1: surgery on the grid layout of the Compression Member page *)
Definition patch_pages (window_obj : value) : G (option bool) :=
  if has_path h window_obj "ui" "myStackedWidget" then
    stack ← g_lift (get_path h window_obj "ui" "myStackedWidget");
    count ← call_method h stack "count" [];
    pages ← g_lift (py_range count);
    g_for pages (update_page stack)
  else
    print "Could not find UI or stackedWidget for immediate update" [];;
    mret None.

Definition _update_live_ui (window_obj : value) : G bool :=
  g_try
    (print "Attempting immediate UI update..." [];;
     returned ← patch_pages window_obj;
     match returned with
     | Some b => mret b
     | None =>
         call_refresh_methods window_obj refresh_methods false ≫= λ ui_updated : bool,
         if ui_updated then
           print "UI update attempted through multiple methods" [];;
           print "The Column module should now be visible in the Compression Member section" [];;
           mret true
         else
           print "UI update failed - changes will be visible after restart" [];;
           mret false
     end)
    (λ e,
       print "Error in _update_live_ui: {e}" [AExn e];;
       print_exc e;;
       mret false).

(** The widget-removal path of deactivate, for one page *)
Definition remove_column_widget (page column_button : value) : G unit :=
  if py_is_none column_button then mret tt
  else
    column_widget ← call_method h column_button "parent" [];
    if py_is_none column_widget then mret tt
    else
      print "Removing Column button widget" [];;
      if has_path h page "ui" "gridLayout" then
        grid ← g_lift (get_path h page "ui" "gridLayout");
        call_method h grid "removeWidget" [column_widget];;
        call_method h column_widget "deleteLater" [];;
        mret tt
      else
        print "Could not find gridLayout in page" [].

Definition deactivate_page (stack : value) (i : nat) : G (option unit) :=
  page ← call_method h stack "widget" [VInt (Z.of_nat i)];
  if negb (py_is_none page) && hasattr h page "findChild" then
    strut_button ← call_method h page "findChild"
                     [VStr "QRadioButton"; VStr "Strut_Design"];
    if py_is_none strut_button then mret None
    else
      print "Found Compression Member page at index {i}" [ANat i];;
      column_button ← call_method h page "findChild"
                        [VStr "QRadioButton"; VStr "Column_Design"];
      remove_column_widget page column_button;;
      mret None
  else mret None.

Definition deactivate_ui (real_main_window : value) : G unit :=
  print "Attempting immediate UI update..." [];;
  if has_path h real_main_window "ui" "myStackedWidget" then
    stack ← g_lift (get_path h real_main_window "ui" "myStackedWidget");
    count ← call_method h stack "count" [];
    pages ← g_lift (py_range count);
    g_for pages (deactivate_page stack);;
    mret tt
  else mret tt.
End LiveUI.

(** ** The plugin: register and deactivate *)

Record state : Type := State {
  store : heap;               (* the host's objects, the registry among them *)
  main_win : value;           (* self.main_win *)
  sys_path : list string;     (* sys.path *)
  out : io
}.

Definition M (A : Type) : Type := state → res A * state.

#[export] Instance M_ret : MRet M := λ A a s, (Ret a, s).
#[export] Instance M_bind : MBind M := λ A B f m s,
  match m s with
  | (Ret a, s') => f a s'
  | (Raise e, s') => (Raise e, s')
  end.

Definition m_lift {A} (r : res A) : M A := λ s, (r, s).

Definition m_gui {A} (g : G A) : M A := λ s,
  let '(r, o) := g (out s) in
  (r, State (store s) (main_win s) (sys_path s) o).

Definition say (t : string) (a : list arg) : M unit := m_gui (print t a).

Definition with_store {A} (f : heap → M A) : M A := λ s, f (store s) s.

Definition get_main_win : M value := λ s, (Ret (main_win s), s).

Definition set_main_win (w : value) : M unit := λ s,
  (Ret tt, State (store s) w (sys_path s) (out s)).

(* target.insert(0, x) *)
Definition list_insert0 (target x : value) : M unit := λ s,
  match py_list (store s) target with
  | Some (l, items) =>
      (Ret tt, State (<[l := OList (x :: items)]> (store s))
                     (main_win s) (sys_path s) (out s))
  | None => (Raise (AttributeError "insert"), s)
  end.

(* target.pop(i) *)
Definition list_pop (target : value) (i : nat) : M unit := λ s,
  match py_list (store s) target with
  | Some (l, items) =>
      if bool_decide (i < length items) then
        (Ret tt, State (<[l := OList (delete i items)]> (store s))
                       (main_win s) (sys_path s) (out s))
      else (Raise IndexError, s)
  | None => (Raise (AttributeError "pop"), s)
  end.

(* if dir not in sys.path: sys.path.append(dir) *)
Definition add_to_sys_path (dir : string) : M unit := λ s,
  if bool_decide (dir ∈ sys_path s) then (Ret tt, s)
  else (Ret tt, State (store s) (main_win s) (sys_path s ++ [dir]) (out s)).

(* the window both entry points work on *)
Definition real_window (W : world) (h : heap) (main_win : value) : value :=
  let found := find_main_window h (top_level W) in
  if negb (py_truthy h found) then main_win else found.

Definition import_column_design (W : world) : M unit :=
  match import_ColumnDesign W with
  | None => say "Successfully imported ColumnDesign class" []
  | Some (ImportError name) =>
      say "Warning: Could not import ColumnDesign: {e}" [AExn (ImportError name)];;
      say "Module activation may fail if ColumnDesign class is not available" []
  | Some e => m_lift (Raise e)
  end.

(* the branch of register taken when the Compression Member entry is a list *)
Definition register_in_list (W : world) (real_main_window modules_dict : value)
    (items : list value) : M unit :=
  last_item ← m_lift (match last items with
                      | Some x => Ret x
                      | None => Raise IndexError
                      end);
  with_store (λ h,
  if py_callable h last_item then
    image_path ← m_gui (get_image_path W "column.png");
    target ← m_lift (py_getitem h modules_dict "Compression Member");
    list_insert0 target (column_entry image_path);;
    say "Added Column module to Compression Member module:" [];;
    say "  - Entry: {column_entry}" [AVal (column_entry image_path)];;
    with_store (λ h,
    _ ← m_lift (getattr h real_main_window "show_compression_module");
    import_column_design W;;
    m_gui (_update_live_ui W h real_main_window);;
    add_to_sys_path (plugin_root W);;
    say "Column Plugin activated! Column module added to Compression Member." [])
  else
    say "Error: Compression Member module doesn't have a handler function" []).

Definition register (W : world) : M unit :=
  say "Registering {self.name} version {self.version} ({self.description})"
      [AStr "Column Plugin"; AStr "0.1";
       AStr "Adds Axially Loaded Column Design module to Osdag"];;
  with_store (λ h,
  main_win ← get_main_win;
  let real_main_window := real_window W h main_win in
  (if negb (py_truthy h (find_main_window h (top_level W))) then
     say "Using main_win from plugin manager: {real_main_window}" [AVal real_main_window]
   else
     say "Found main window: {real_main_window}" [AVal real_main_window]);;
  set_main_win real_main_window;;
  found ← m_lift (_find_modules_dict h real_main_window);
  let modules_obj := found.1 in
  let modules_dict := found.2 in
  if negb (py_truthy h modules_dict) then
    say "Error: Could not find Modules dictionary" [];;
    say "Available attributes in main window: {dir(real_main_window)}"
        [AStrs (py_dir h real_main_window)];;
    if hasattr h real_main_window "ui" then
      ui ← m_lift (getattr h real_main_window "ui");
      say "Available attributes in main window.ui: {dir(real_main_window.ui)}"
          [AStrs (py_dir h ui)]
    else mret tt
  else
    say "Found Modules dictionary in {modules_obj}" [AVal modules_obj];;
    has_category ← m_lift (py_contains h "Compression Member" modules_dict);
    if has_category : bool then
      compression_module ← m_lift (py_getitem h modules_dict "Compression Member");
      match py_list h compression_module with
      | Some (_, items) => register_in_list W real_main_window modules_dict items
      | None =>
          say "Error: Compression Member module is not a list (got {type(compression_module)})"
              [AStr (class_name h compression_module)]
      end
    else
      say "Error: Compression Member module not found in Modules dictionary" [];;
      keys ← m_lift (py_keys h modules_dict);
      say "Available modules: {list(modules_dict.keys())}" [AStrs keys]).

(* isinstance(item, tuple) and len(item) >= 3 and item[2] == 'Column_Design' *)
Definition is_column_entry (item : value) : bool :=
  match item with
  | VTuple fields =>
      bool_decide (3 ≤ length fields) &&
      match fields !! 2 with
      | Some identifier => py_is_str "Column_Design" identifier
      | None => false
      end
  | _ => false
  end.

(* the index at which the loop over enumerate(compression_module) breaks *)
Fixpoint find_column_entry (i : nat) (items : list value) : option nat :=
  match items with
  | [] => None
  | item :: rest =>
      if is_column_entry item then Some i else find_column_entry (S i) rest
  end.

(* closing the module window when the Column module is open *)
Definition close_column_window (h : heap) (real_main_window : value) : G unit :=
  if hasattr h real_main_window "module_window" then
    module_window ← g_lift (getattr h real_main_window "module_window");
    if py_truthy h module_window then
      if hasattr h real_main_window "module_name" then
        module_name ← g_lift (getattr h real_main_window "module_name");
        if py_is_str "Column" module_name then
          call_method h module_window "close" [];;
          mret tt
        else mret tt
      else mret tt
    else mret tt
  else mret tt.

(* the branch of deactivate taken when the Compression Member entry is a list *)
Definition deactivate_in_list (real_main_window modules_dict : value)
    (items : list value) : M unit :=
  match find_column_entry 0 items with
  | Some i =>
      with_store (λ h,
      target ← m_lift (py_getitem h modules_dict "Compression Member");
      list_pop target i;;
      say "Removed Column module from Compression Member module" [])
  | None => mret tt
  end;;
  with_store (λ h, m_gui (deactivate_ui h real_main_window)).

Definition deactivate (W : world) : M unit :=
  say "Deactivating Column Plugin..." [];;
  with_store (λ h,
  main_win ← get_main_win;
  let real_main_window := real_window W h main_win in
  m_gui (close_column_window h real_main_window);;
  found ← m_lift (_find_modules_dict h real_main_window);
  let modules_dict := found.2 in
  if negb (py_truthy h modules_dict) then
    say "Error: Could not find Modules dictionary" []
  else
    has_category ← m_lift (py_contains h "Compression Member" modules_dict);
    (if has_category : bool then
       compression_module ← m_lift (py_getitem h modules_dict "Compression Member");
       match py_list h compression_module with
       | Some (_, items) => deactivate_in_list real_main_window modules_dict items
       | None =>
           say "Error: Compression Member module is not a list (got {type(compression_module)})"
               [AStr (class_name h compression_module)]
       end
     else
       say "Error: Compression Member module not found in Modules dictionary" []);;
    say "Column Plugin deactivated" []).

(** ** Vocabulary of the properties *)

(* The registry both entry points locate in state [s] is the dict at [d]. *)
Definition registry_at (W : world) (s : state) (d : loc) : Prop :=
  ∃ modules_obj,
    _find_modules_dict (store s) (real_window W (store s) (main_win s))
    = Ret (modules_obj, VRef d).

(* The dict at [d] maps 'Compression Member' to the list object [l], which
   holds [items]. *)
Definition category_list (h : heap) (d l : loc) (items : list value) : Prop :=
  ∃ entries,
    h !! d = Some (ODict entries) ∧
    entries !! "Compression Member" = Some (VRef l) ∧
    h !! l = Some (OList items).

(* The dict at [d] has no key 'Compression Member'. *)
Definition category_missing (h : heap) (d : loc) : Prop :=
  ∃ entries,
    h !! d = Some (ODict entries) ∧ entries !! "Compression Member" = None.

(* the path register puts in the descriptor *)
Definition image_path (W : world) : string :=
  match osdag_image W with
  | Ret p => p
  | Raise _ => os_path_join [plugin_dir W; "column"; "resources"; "column.png"]
  end.

(* the last element of the list is a callable *)
Definition trailing_callable (h : heap) (items : list value) : Prop :=
  ∃ handler, last items = Some handler ∧ py_callable h handler = true.

(* (display_name, image_path, identifier) *)
Definition is_descriptor (v : value) : Prop :=
  ∃ name img ident, v = VTuple [VStr name; VStr img; VStr ident].

(* descriptor tuples followed by a trailing callable *)
Definition well_formed (h : heap) (items : list value) : Prop :=
  ∃ (descriptors : list value) (handler : value),
    items = (descriptors ++ [handler])%list ∧
    Forall is_descriptor descriptors ∧
    py_callable h handler = true.

(* a tuple of length at least 3 whose third field is 'Column_Design' *)
Definition column_descriptor (v : value) : Prop :=
  ∃ name img rest, v = VTuple (name :: img :: VStr "Column_Design" :: rest).

Definition is_error_line (ln : line) : bool :=
  String.prefix "Error:" (text ln).

(* a call that takes a widget out of its layout or deletes it *)
Definition is_removal (c : call_event) : bool :=
  bool_decide (method c = "removeWidget") || bool_decide (method c = "deleteLater").

(** The widget graph and its depth-first order *)

Definition child_of (h : heap) (p c : loc) : Prop :=
  ∃ cs, children h (VRef p) = Ret cs ∧ c ∈ cs.

Inductive reach (h : heap) (root : loc) : loc → Prop :=
| reach_root : reach h root root
| reach_child p c : reach h root p → child_of h p c → reach h root c.



Fixpoint dfs_children (dfs : loc → gset loc → option (list loc * gset loc))
    (cs : list loc) (visited : gset loc) : option (list loc * gset loc) :=
  match cs with
  | [] => Some ([], visited)
  | c :: rest =>
      match dfs c visited with
      | None => None
      | Some (order1, visited1) =>
          match dfs_children dfs rest visited1 with
          | None => None
          | Some (order2, visited2) => Some (order1 ++ order2, visited2)
          end
      end
  end.

(* The depth-first (pre-)order in which the objects not yet visited are
   met from [l], children taken in the order of children(); the traversal
   is complete, it does not stop at an object exposing Modules. *)
Fixpoint dfs_order (fuel : nat) (h : heap) (l : loc) (visited : gset loc)
    : option (list loc * gset loc) :=
  match fuel with
  | 0 => None
  | S fuel' =>
      if decide (l ∈ visited) then Some ([], visited)
      else
        let visited := {[l]} ∪ visited in
        match children h (VRef l) with
        | Raise _ => Some ([l], visited)
        | Ret cs =>
            match dfs_children (dfs_order fuel' h) cs visited with
            | None => None
            | Some (order, visited') => Some (l :: order, visited')
            end
        end
  end.




(* the list deactivate leaves: the first Column entry taken out *)
Definition remove_column (items : list value) : list value :=
  match find_column_entry 0 items with
  | Some i => delete i items
  | None => items
  end.

(* stack.widget(i) is [page] *)
Definition page_at (h : heap) (stack : value) (i : nat) (page : value) : Prop :=
  ∃ lw widget,
    getattr h stack "widget" = Ret (VRef lw) ∧
    h !! lw = Some (OFunc widget) ∧
    widget [VInt (Z.of_nat i)] = Ret page.

(* page.findChild(QRadioButton, name) is [button] *)
Definition finds (h : heap) (page : value) (name : string) (button : value) : Prop :=
  ∃ lf findChild,
    getattr h page "findChild" = Ret (VRef lf) ∧
    h !! lf = Some (OFunc findChild) ∧
    findChild [VStr "QRadioButton"; VStr name] = Ret button.


(** ** A sample host *)

(* A main window exposing the registry, with one stacked page that holds
   the Strut_Design button and no Column_Design button. *)
Definition ex_handler : obj := OFunc (λ _, Ret VNone).

Definition ex_strut : value :=
  VTuple [VStr "Struts in Trusses"; VStr "strut.png"; VStr "Strut_Design"].

Definition ex_items : list value := [ex_strut; VRef 4].

Definition ex_find_child (args : list value) : res value :=
  match args with
  | [_; VStr name] =>
      if bool_decide (name = "Strut_Design") then Ret (VRef 13) else Ret VNone
  | _ => Ret VNone
  end.

Definition ex_widgets : list (loc * obj) :=
  [(1, OInst (Instance "OsdagMainWindow"
                (list_to_map [("Modules", VRef 2);
                              ("show_compression_module", VRef 5);
                              ("ui", VRef 6)])
                (Some [8])));
   (4, ex_handler);
   (5, ex_handler);
   (6, OInst (Instance "Ui_MainWindow"
                (list_to_map [("myStackedWidget", VRef 8)]) None));
   (8, OInst (Instance "QStackedWidget"
                (list_to_map [("count", VRef 9); ("widget", VRef 10)])
                (Some [11])));
   (9, OFunc (λ _, Ret (VInt 1)));
   (10, OFunc (λ _, Ret (VRef 11)));
   (11, OInst (Instance "Submodule_Page"
                 (list_to_map [("findChild", VRef 12)]) (Some [13])));
   (12, OFunc ex_find_child);
   (13, OInst (Instance "QRadioButton" ∅ (Some [])))].

Definition ex_store : heap :=
  list_to_map
    ((2, ODict (list_to_map [("Compression Member", VRef 3)]))
     :: (3, OList ex_items) :: ex_widgets).

(* the same host, the list lacking its handler *)
Definition ex_store_bare : heap :=
  list_to_map
    ((2, ODict (list_to_map [("Compression Member", VRef 3)]))
     :: (3, OList [ex_strut]) :: ex_widgets).

(* the same host, the registry lacking the category *)
Definition ex_store_other : heap :=
  list_to_map
    ((2, ODict (list_to_map [("Tension Member", VRef 3)]))
     :: (3, OList ex_items) :: ex_widgets).

(* the same host with the Column module open in a window that has no
   close method *)
Definition ex_store_open : heap :=
  <[1 := OInst (Instance "OsdagMainWindow"
                  (list_to_map [("Modules", VRef 2);
                                ("show_compression_module", VRef 5);
                                ("ui", VRef 6);
                                ("module_window", VRef 13);
                                ("module_name", VStr "Column")])
                  (Some [8]))]> ex_store.

Definition ex_world : world :=
  World [1] (Ret "CompressionMembers_ColumnsInFrames.png")
        "/plugins/column_plugin" "/plugins" None
        (Raise (ImportError "osdag.osdagMainPage")).

(* no window of the host is up *)
Definition ex_world_headless : world :=
  World [] (Ret "CompressionMembers_ColumnsInFrames.png")
        "/plugins/column_plugin" "/plugins" None
        (Raise (ImportError "osdag.osdagMainPage")).

Definition ex_io : io := IO [] [] [].

Definition ex_state : state := State ex_store VNone [] ex_io.
Definition ex_state_bare : state := State ex_store_bare VNone [] ex_io.
Definition ex_state_other : state := State ex_store_other VNone [] ex_io.
Definition ex_state_open : state := State ex_store_open VNone [] ex_io.

Definition ex_entry : value := column_entry "CompressionMembers_ColumnsInFrames.png".

(* a widget graph with a cycle: 20 -> 21 -> 20, and two objects exposing
   Modules, 23 (met first) and 22 *)
Definition ex_node (modules : option value) (cs : list loc) : obj :=
  OInst (Instance "QWidget"
           (match modules with
            | Some m => {["Modules" := m]}
            | None => ∅
            end)
           (Some cs)).

Definition ex_graph : heap :=
  list_to_map
    [(20, ex_node None [21; 22]);
     (21, ex_node None [20; 23]);
     (22, ex_node (Some (VRef 2)) []);
     (23, ex_node (Some (VRef 3)) [21])].

(** ** Vocabulary of the further properties *)

(* the top-level widget [w] gives access to the registry: it has the
   attribute Modules, or its attribute ui has *)
Definition exposes_registry (h : heap) (w : loc) : Prop :=
  hasattr h (VRef w) "Modules" = true ∨
  ∃ ui, getattr h (VRef w) "ui" = Ret ui ∧ hasattr h ui "Modules" = true.


(* what the registry search may answer from the object [l]: nothing, or an
   object reachable from [l] together with its attribute Modules *)
Definition search_answer (h : heap) (l : loc) (r : value * value) : Prop :=
  r = (VNone, VNone) ∨
  ∃ x m, r = (VRef x, m) ∧ reach h l x ∧
         hasattr h (VRef x) "Modules" = true ∧
         getattr h (VRef x) "Modules" = Ret m.


(* the dict at [d] maps 'Compression Member' to [v] *)
Definition category_value (h : heap) (d : loc) (v : value) : Prop :=
  ∃ entries,
    h !! d = Some (ODict entries) ∧ entries !! "Compression Member" = Some v.

(* recv.name(args) is a call of a host callable that returns [result] *)
Definition method_returns (h : heap) (recv : value) (name : string)
    (args : list value) (result : value) : Prop :=
  ∃ l call,
    getattr h recv name = Ret (VRef l) ∧
    h !! l = Some (OFunc call) ∧
    call args = Ret result.

(* recv.name(args) is a call of a host callable that raises [e] *)
Definition method_raises (h : heap) (recv : value) (name : string)
    (args : list value) (e : exn) : Prop :=
  ∃ l call,
    getattr h recv name = Ret (VRef l) ∧
    h !! l = Some (OFunc call) ∧
    call args = Raise e.

(** Launching the module *)

(* what show_column_module imports *)
Record launcher : Type := Launcher {
  import_ui_template : option exn;      (* import osdag.gui.ui_template *)
  import_Ui_ModuleWindow : res value;   (* from .. import Ui_ModuleWindow *)
  import_Column : res value             (* from .. import ColumnDesign *)
}.

(* show_column_module, [main_win] being self.main_win *)
Definition show_column_module (L : launcher) (h : heap) (main_win : value)
    : G unit :=
  match import_ui_template L with
  | Some e => g_raise e
  | None => mret tt
  end;;
  Ui_ModuleWindow ← g_lift (import_Ui_ModuleWindow L);
  ColumnDesign ← g_lift (import_Column L);
  if py_truthy h main_win then
    call_method h main_win "hide" [];;
    ui2 ← invoke h Ui_ModuleWindow "" Ui_ModuleWindow [ColumnDesign; VStr " "];
    call_method h ui2 "show" [];;
    closed ← g_lift (getattr h ui2 "closed");
    connect ← g_lift (getattr h closed "connect");
    show ← g_lift (getattr h main_win "show");
    invoke h closed "connect" connect [show];;
    mret tt
  else
    print "Cannot launch column module: main_win not set" [].

(* the imports of show_column_module succeed *)
Definition imports_ok (L : launcher) : Prop :=
  import_ui_template L = None ∧
  (∃ c, import_Ui_ModuleWindow L = Ret c) ∧
  (∃ c, import_Column L = Ret c).


(** More sample hosts *)

(* the category is a leaf handler, not a list *)
Definition ex_store_leaf : heap :=
  list_to_map
    ((2, ODict (list_to_map [("Compression Member", VRef 4)]))
     :: (3, OList ex_items) :: ex_widgets).

(* the list of the category is empty *)
Definition ex_store_empty : heap :=
  list_to_map
    ((2, ODict (list_to_map [("Compression Member", VRef 3)]))
     :: (3, OList []) :: ex_widgets).

Definition ex_state_leaf : state := State ex_store_leaf VNone [] ex_io.
Definition ex_state_empty : state := State ex_store_empty VNone [] ex_io.

(* a stacked widget with two pages that both hold a Column_Design button:
   page 31 has a grid layout, page 41 has none *)
Definition ex_find_both (args : list value) : res value :=
  match args with
  | [_; VStr name] =>
      if bool_decide (name = "Strut_Design") then Ret (VRef 33)
      else if bool_decide (name = "Column_Design") then Ret (VRef 34)
      else Ret VNone
  | _ => Ret VNone
  end.

Definition ex_pages (args : list value) : res value :=
  match args with
  | [VInt 0] => Ret (VRef 31)
  | [VInt 1] => Ret (VRef 41)
  | _ => Ret VNone
  end.

Definition ex_patched : heap :=
  list_to_map
    [(30, OInst (Instance "QStackedWidget"
                   (list_to_map [("count", VRef 38); ("widget", VRef 39)])
                   (Some [31; 41])));
     (31, OInst (Instance "Submodule_Page"
                   (list_to_map [("findChild", VRef 32); ("ui", VRef 36)])
                   (Some [35])));
     (32, OFunc ex_find_both);
     (33, OInst (Instance "QRadioButton" ∅ (Some [])));
     (34, OInst (Instance "QRadioButton"
                   (list_to_map [("parent", VRef 40)]) (Some [])));
     (35, OInst (Instance "Submodule_Widget"
                   (list_to_map [("deleteLater", VRef 4)]) (Some [34])));
     (36, OInst (Instance "Ui_Page"
                   (list_to_map [("gridLayout", VRef 37)]) None));
     (37, OInst (Instance "QGridLayout"
                   (list_to_map [("removeWidget", VRef 4)]) (Some [])));
     (38, OFunc (λ _, Ret (VInt 2)));
     (39, OFunc ex_pages);
     (40, OFunc (λ _, Ret (VRef 35)));
     (41, OInst (Instance "Submodule_Page"
                   (list_to_map [("findChild", VRef 32)]) (Some [35])));
     (4, ex_handler)].

(* a main window that can be hidden and shown, and the module window
   class; the class at 52 fails to construct *)
Definition ex_launch : heap :=
  list_to_map
    [(1, OInst (Instance "OsdagMainWindow"
                  (list_to_map [("hide", VRef 4); ("show", VRef 5)]) (Some [])));
     (4, ex_handler);
     (5, ex_handler);
     (50, OFunc (λ _, Ret (VRef 53)));
     (52, OFunc (λ _, Raise (HostError "module window")));
     (53, OInst (Instance "Ui_ModuleWindow"
                   (list_to_map [("show", VRef 4); ("closed", VRef 54)])
                   (Some [])));
     (54, OInst (Instance "pyqtBoundSignal"
                   (list_to_map [("connect", VRef 4)]) None))].

Definition ex_launcher : launcher := Launcher None (Ret (VRef 50)) (Ret (VRef 51)).
Definition ex_launcher_failing : launcher :=
  Launcher None (Ret (VRef 52)) (Ret (VRef 51)).
Definition ex_launcher_missing : launcher :=
  Launcher None (Raise (ImportError "osdag.gui.ui_template")) (Ret (VRef 51)).

(** * Properties *)

(** ** The registry search *)

Section Search.
Variable h : heap.







(** the depth-first order *)



Lemma reach_step p c u : child_of h p c → reach h c u → reach h p u.
Proof.
  intros Hpc Hcu. induction Hcu as [|q u Hq IH Hqu].
  - eapply reach_child; [apply reach_root|done].
  - eapply reach_child; eauto.
Qed.




(** the search against the depth-first order *)






End Search.

(** ** Updating a list in place *)

Lemma search_children_ext s1 s2 cs :
  (∀ w vis, s1 w vis = s2 w vis) →
  ∀ vis, search_children s1 cs vis = search_children s2 cs vis.
Proof.
  intros E. induction cs as [|c rest IH]; intros vis; simpl; [done|].
  rewrite E. destruct (s2 (VRef c) vis) as [[[result|e] v']|]; [|done..].
  by rewrite IH.
Qed.

Lemma first_match_ext {A B} (f g : A → option B) l :
  (∀ x, f x = g x) → first_match f l = first_match g l.
Proof. intros E. induction l as [|x l IH]; simpl; [done|]. by rewrite E, IH. Qed.

Lemma first_match_some {A B} (f : A → option B) l y :
  first_match f l = Some y → ∃ x, x ∈ l ∧ f x = Some y.
Proof.
  induction l as [|x l IH]; simpl; [done|].
  destruct (f x) eqn:E.
  - intros [= <-]. exists x. split; [left|done].
  - intros (x' & ? & ?)%IH. exists x'. split; [by right|done].
Qed.

(** Replacing the items of a list object changes nothing of what the
    plugin reads from the other objects. *)
Section ListUpdate.
Context (h : heap) (l : loc) (old new : list value).
Hypothesis Hl : h !! l = Some (OList old).
Let h' : heap := <[l := OList new]> h.

Lemma lookup_update_other l0 : l0 ≠ l → h' !! l0 = h !! l0.
Proof. intros. unfold h'. by rewrite lookup_insert_ne. Qed.

Lemma lookup_update_same : h' !! l = Some (OList new).
Proof. unfold h'. by rewrite lookup_insert_eq. Qed.

Ltac by_cases l0 :=
  destruct (decide (l0 = l)) as [->|Hne];
  [rewrite lookup_update_same, Hl|rewrite (lookup_update_other _ Hne)]; try done.

Lemma py_instance_update v : py_instance h' v = py_instance h v.
Proof. destruct v as [| | | |l0]; simpl; try done. by_cases l0. Qed.

Lemma hasattr_update v name : hasattr h' v name = hasattr h v name.
Proof. unfold hasattr. by rewrite py_instance_update. Qed.

Lemma getattr_update v name : getattr h' v name = getattr h v name.
Proof. unfold getattr. by rewrite py_instance_update. Qed.

Lemma children_update v : children h' v = children h v.
Proof. unfold children. by rewrite py_instance_update. Qed.

Lemma with_modules_update v : with_modules h' v = with_modules h v.
Proof. unfold with_modules. by rewrite getattr_update. Qed.

Lemma class_name_update v : class_name h' v = class_name h v.
Proof. destruct v as [| | | |l0]; simpl; try done. by_cases l0. Qed.

Lemma py_callable_update v : py_callable h' v = py_callable h v.
Proof. destruct v as [| | | |l0]; simpl; try done. by_cases l0. Qed.

Lemma py_truthy_update v : v ≠ VRef l → py_truthy h' v = py_truthy h v.
Proof.
  destruct v as [| | | |l0]; simpl; try done. intros Hv.
  rewrite lookup_update_other; [done|congruence].
Qed.

Lemma py_getitem_update v k : py_getitem h' v k = py_getitem h v k.
Proof. destruct v as [| | | |l0]; simpl; try done. by_cases l0. Qed.

Lemma size_update : size h' = size h.
Proof.
  rewrite <-!size_dom. f_equal. unfold h'. rewrite dom_insert_L.
  assert (l ∈ dom h) by (apply elem_of_dom; eauto). set_solver.
Qed.

Lemma search_update fuel : ∀ w vis,
  search_for_modules fuel h' w vis = search_for_modules fuel h w vis.
Proof.
  induction fuel as [|fuel IH]; intros w vis; [done|].
  destruct w as [| | | |l0]; simpl; try done.
  change (VRef l0) with (VRef l0) at 1.
  rewrite (hasattr_update (VRef l0)), (with_modules_update (VRef l0)),
    (children_update (VRef l0)).
  destruct (decide (l0 ∈ vis)); [done|].
  destruct (hasattr h (VRef l0) "Modules"); [done|].
  destruct (children h (VRef l0)); [|done].
  by apply search_children_ext.
Qed.

Lemma find_modules_dict_update w :
  _find_modules_dict h' w = _find_modules_dict h w.
Proof.
  unfold _find_modules_dict.
  rewrite !hasattr_update, with_modules_update, getattr_update, size_update,
    search_update.
  destruct (getattr h w "ui") as [ui|]; [|done].
  by rewrite hasattr_update, with_modules_update.
Qed.

Lemma top_widget_match_update w : top_widget_match h' w = top_widget_match h w.
Proof.
  unfold top_widget_match. rewrite !hasattr_update, getattr_update.
  destruct (getattr h (VRef w) "ui") as [ui|]; [|done].
  by rewrite !hasattr_update.
Qed.

Lemma find_main_window_update tops :
  find_main_window h' tops = find_main_window h tops.
Proof.
  unfold find_main_window.
  rewrite (first_match_ext (top_widget_match h') (top_widget_match h))
    by apply top_widget_match_update.
  destruct (first_match (top_widget_match h) tops); [done|].
  match goal with |- match ?a with _ => _ end = match ?b with _ => _ end =>
    replace a with b; [done|] end.
  apply first_match_ext. intros x. by rewrite (class_name_update (VRef x)).
Qed.

Lemma hasattr_not_list v name : hasattr h v name = true → v ≠ VRef l.
Proof. intros H ->. unfold hasattr in H. simpl in H. by rewrite Hl in H. Qed.

Lemma top_widget_match_exposes w v :
  top_widget_match h w = Some v → hasattr h v "Modules" = true.
Proof.
  unfold top_widget_match.
  destruct (hasattr h (VRef w) "Modules") eqn:E1; [by intros [= <-]|].
  destruct (hasattr h (VRef w) "ui"); [|done].
  destruct (getattr h (VRef w) "ui") as [ui|]; [|done].
  destruct (hasattr h ui "Modules") eqn:E2; [by intros [= <-]|].
  by destruct (hasattr h ui "myStackedWidget").
Qed.

Lemma find_main_window_not_list tops : find_main_window h tops ≠ VRef l.
Proof.
  unfold find_main_window.
  destruct (first_match (top_widget_match h) tops) as [v|] eqn:E1.
  { apply first_match_some in E1 as (w & _ & Hw).
    eapply hasattr_not_list, top_widget_match_exposes, Hw. }
  match goal with |- match ?a with _ => _ end ≠ _ =>
    destruct a as [v|] eqn:E2; [|done] end.
  apply first_match_some in E2 as (w & _ & Hw).
  case_bool_decide as Hc; [|done]. injection Hw as <-.
  intros [= ->]. simpl in Hc. by rewrite Hl in Hc.
Qed.

Lemma real_window_update W mw : real_window W h' mw = real_window W h mw.
Proof.
  unfold real_window. rewrite find_main_window_update.
  by rewrite py_truthy_update by apply find_main_window_not_list.
Qed.
End ListUpdate.

(** ** Running register and deactivate *)

Section Category.
Context {h : heap} {d l : loc} {items : list value}.
Hypothesis Hcat : category_list h d l items.

Lemma cat_truthy : py_truthy h (VRef d) = true.
Proof.
  destruct Hcat as (entries & Hd & Hk & _). simpl. rewrite Hd.
  destruct (map_to_list entries) eqn:E; [|done].
  apply map_to_list_empty_iff in E. subst. by rewrite lookup_empty in Hk.
Qed.

Lemma cat_contains : py_contains h "Compression Member" (VRef d) = Ret true.
Proof.
  destruct Hcat as (entries & Hd & Hk & _). simpl. rewrite Hd.
  f_equal. apply bool_decide_eq_true. eauto.
Qed.

Lemma cat_getitem : py_getitem h (VRef d) "Compression Member" = Ret (VRef l).
Proof. destruct Hcat as (entries & Hd & Hk & _). simpl. by rewrite Hd, Hk. Qed.

Lemma cat_list : py_list h (VRef l) = Some (l, items).
Proof. destruct Hcat as (entries & _ & _ & Hl). simpl. by rewrite Hl. Qed.

Lemma cat_update new : category_list (<[l := OList new]> h) d l new.
Proof.
  destruct Hcat as (entries & Hd & Hk & Hl). exists entries.
  rewrite lookup_insert_eq. split_and!; [|done..].
  rewrite lookup_insert_ne; [done|]. intros ->. by rewrite Hl in Hd.
Qed.
End Category.

Lemma get_image_path_run W o :
  ∃ o', get_image_path W "column.png" o = (Ret (image_path W), o').
Proof.
  unfold get_image_path, g_try, g_lift, image_path.
  destruct (osdag_image W); eauto.
Qed.

Ltac run1 :=
  cbv beta iota zeta delta
    [register register_in_list import_column_design deactivate deactivate_in_list
     mbind M_bind mret M_ret say m_gui print with_store
     get_main_win set_main_win m_lift list_insert0 list_pop add_to_sys_path];
  cbn [store main_win sys_path out stdout stderr host_calls fst snd negb andb].

Ltac run := repeat progress run1.

(* case analysis on the innermost test the run is stuck on *)
Ltac case_inner :=
  match goal with
  | |- context [match ?x with _ => _ end] =>
      lazymatch x with
      | context [match _ with _ => _ end] => fail
      | _ => destruct x eqn:?
      end
  end.

Ltac image_path_step :=
  match goal with
  | |- context [get_image_path ?W' _ ?o'] =>
      let o1 := fresh "o" in
      destruct (get_image_path_run W' o') as [o1 ->]
  end.

(* register, when the registry is found and its list ends in a callable *)
Lemma register_run W s d l items :
  registry_at W s d → category_list (store s) d l items →
  trailing_callable (store s) items →
  ∃ r sp o,
    register W s =
    (r, State (<[l := OList (column_entry (image_path W) :: items)]> (store s))
              (real_window W (store s) (main_win s)) sp o).
Proof.
  intros [mo Hfind] Hcat (f & Hlast & Hcall). destruct s as [h mw sp o].
  simpl in *. run.
  destruct (negb (py_truthy h (find_main_window h (top_level W)))); run;
  rewrite Hfind; run; rewrite (cat_truthy Hcat); run;
  rewrite (cat_contains Hcat); run; rewrite (cat_getitem Hcat); run;
  rewrite (cat_list Hcat); run; rewrite Hlast; run; rewrite Hcall.
  all: image_path_step; run.
  all: rewrite (cat_getitem Hcat), (cat_list Hcat); run.
  all: repeat (case_inner; run); eauto.
Qed.

(* after register the same registry is found again *)
Lemma registry_at_update W h mw sp o d l old new sp' o' :
  h !! l = Some (OList old) →
  registry_at W (State h mw sp o) d →
  registry_at W (State (<[l := OList new]> h) (real_window W h mw) sp' o') d.
Proof.
  intros Hl [mo Hfind]. exists mo. simpl in *.
  rewrite (real_window_update _ _ _ _ Hl), (find_modules_dict_update _ _ _ _ Hl).
  replace (real_window W h (real_window W h mw)) with (real_window W h mw); [done|].
  unfold real_window. by destruct (negb (py_truthy h (find_main_window h (top_level W)))).
Qed.

Lemma trailing_callable_cons h x items :
  trailing_callable h items → trailing_callable h (x :: items).
Proof.
  intros (f & Hlast & Hcall). exists f. split; [|done].
  destruct items; [done|]. by rewrite last_cons, Hlast.
Qed.

Lemma trailing_callable_update h l old new items :
  h !! l = Some (OList old) →
  trailing_callable h items → trailing_callable (<[l := OList new]> h) items.
Proof.
  intros Hl (f & Hlast & Hcall). exists f. split; [done|].
  by rewrite (py_callable_update _ _ _ _ Hl).
Qed.

Ltac case_step :=
  match goal with
  | H : ?x = _ |- context [match ?x with _ => _ end] => rewrite H
  | |- _ => case_inner
  end.

Lemma is_column_entry_descriptor x :
  is_column_entry x = true ↔ column_descriptor x.
Proof.
  split.
  - destruct x as [| | |fields|]; try done. simpl.
    intros [_ Hc]%andb_true_iff.
    destruct fields as [|a [|b [|c rest]]]; simpl in Hc; try done.
    destruct c as [| |s| |]; try done.
    apply bool_decide_eq_true in Hc as ->. by exists a, b, rest.
  - intros (a & b & rest & ->). apply andb_true_iff. split.
    + apply bool_decide_eq_true. simpl. lia.
    + done.
Qed.


Lemma find_column_entry_some k items i :
  find_column_entry k items = Some i →
  ∃ pre x post,
    items = pre ++ x :: post ∧ i = k + length pre ∧
    is_column_entry x = true ∧
    Forall (λ y, is_column_entry y = false) pre.
Proof.
  revert k. induction items as [|y items IH]; intros k; simpl; [done|].
  destruct (is_column_entry y) eqn:Hy.
  - intros [= <-]. exists [], y, items. simpl. split_and!; auto with lia.
  - intros (pre & x & post & -> & -> & Hx & Hpre)%IH.
    exists (y :: pre), x, post. simpl. split_and!; auto with lia.
Qed.




(* deactivate, when the registry is found and holds the list *)
Lemma deactivate_run W s d l items :
  registry_at W s d → category_list (store s) d l items →
  ∃ r sp o,
    (deactivate W s = (Raise r, State (store s) (main_win s) sp o)) ∨
    (∃ r', deactivate W s =
     (r', State (<[l := OList (remove_column items)]> (store s)) (main_win s) sp o)).
Proof.
  intros [mo Hfind] Hcat. destruct s as [h mw sp o]. simpl in *. run.
  case_inner; run. case_inner; run; [|eauto].
  rewrite Hfind; run; rewrite (cat_truthy Hcat); run;
  rewrite (cat_contains Hcat); run; rewrite (cat_getitem Hcat); run;
  rewrite (cat_list Hcat); run.
  unfold remove_column.
  destruct (find_column_entry 0 items) as [idx|] eqn:Hi; run.
  - rewrite (cat_getitem Hcat), (cat_list Hcat); run.
    apply find_column_entry_some in Hi as (pre & x & post & -> & -> & _ & _).
    rewrite bool_decide_eq_true_2 by (rewrite length_app; simpl; lia). run.
    repeat (case_inner; run); eexists (AttributeError ""), _, _; right; eauto.
  - assert (<[l:=OList items]> h = h) as ->.
    { apply insert_id. by destruct Hcat as (? & _ & _ & ?). }
    repeat (case_inner; run); eexists (AttributeError ""), _, _; right; eauto.
Qed.

Lemma well_formed_trailing h items :
  well_formed h items → trailing_callable h items.
Proof.
  intros (descs & f & -> & _ & Hf). exists f. by rewrite last_snoc.
Qed.

(** C4 (amended): on success -- the registry is found, 'Compression Member'
    maps to a list, and the last element of that list is callable --
    register() inserts the descriptor ('Axially Loaded Column', image_path,
    'Column_Design') at index 0 of the list, in front of what it held. *)
Theorem register_inserts_at_front W s d l items :
  registry_at W s d → category_list (store s) d l items →
  trailing_callable (store s) items →
  store (register W s).2 !! l
  = Some (OList (column_entry (image_path W) :: items)).
Proof.
  intros Hreg Hcat Hcall.
  destruct (register_run W s d l items Hreg Hcat Hcall) as (r & sp & o & ->).
  simpl. by rewrite lookup_insert_eq.
Qed.

(** C3: register() makes no check for an identifier already present: two
    calls on a registry with a well-formed 'Compression Member' list leave
    the descriptor with identifier 'Column_Design' twice in that list. *)
Theorem register_twice_duplicates W s d l items :
  registry_at W s d → category_list (store s) d l items →
  well_formed (store s) items →
  let entry := column_entry (image_path W) in
  column_descriptor entry ∧
  store (register W (register W s).2).2 !! l
  = Some (OList (entry :: entry :: items)).
Proof.
  intros Hreg Hcat Hwf%well_formed_trailing entry.
  split; [by apply is_column_entry_descriptor|].
  destruct (register_run W s d l items Hreg Hcat Hwf) as (r & sp & o & ->).
  destruct s as [h mw sp0 o0]. simpl in *.
  pose proof Hcat as (entries & _ & _ & Hl).
  edestruct (register_run W) as (r' & sp' & o' & ->).
  - eapply registry_at_update; eauto.
  - simpl. by eapply cat_update.
  - simpl. eapply trailing_callable_update; [done|].
    by apply trailing_callable_cons.
  - simpl. by rewrite lookup_insert_eq.
Qed.



Ltac grun1 :=
  cbv beta iota zeta delta
    [mbind G_bind mret G_ret g_lift g_raise g_try print print_exc invoke call_method];
  cbn [stdout stderr host_calls fst snd negb andb].
Ltac grun := repeat progress grun1.




(** C7 (amended): register() does check that the last element of the
    'Compression Member' list is callable: when it is not, register()
    returns normally, leaves the store unchanged and ends by printing that
    the module has no handler function. *)
Theorem register_checks_handler W s d l items x :
  registry_at W s d → category_list (store s) d l items →
  last items = Some x → py_callable (store s) x = false →
  (register W s).1 = Ret tt ∧
  store (register W s).2 = store s ∧
  last (stdout (out (register W s).2))
  = Some (Line "Error: Compression Member module doesn't have a handler function" []).
Proof.
  intros [mo Hfind] Hcat Hlast Hcall. destruct s as [h mw sp o]. simpl in *.
  run.
  destruct (negb (py_truthy h (find_main_window h (top_level W)))); run;
  rewrite Hfind; run; rewrite (cat_truthy Hcat); run;
  rewrite (cat_contains Hcat); run; rewrite (cat_getitem Hcat); run;
  rewrite (cat_list Hcat); run; rewrite Hlast; run; rewrite Hcall; simpl;
  by rewrite last_snoc.
Qed.

Lemma py_list_some h v l items :
  py_list h v = Some (l, items) → v = VRef l ∧ h !! l = Some (OList items).
Proof.
  destruct v as [| | | |l0]; simpl; try done.
  destruct (h !! l0) as [[]|] eqn:E; try done. by intros [= <- <-].
Qed.

(** What register can do to the store: nothing, or one insertion at the
    front of a list. *)
Lemma register_effect W s :
  store (register W s).2 = store s ∨
  ∃ l items x,
    store s !! l = Some (OList items) ∧
    store (register W s).2 = <[l := OList (x :: items)]> (store s).
Proof.
  destruct s as [h mw sp o]. simpl. run.
  repeat (case_step; run); simpl; auto.
  all: right;
    match goal with H : py_list _ _ = Some _ |- _ =>
      apply py_list_some in H as [_ H] end; eauto.
Qed.

(** What deactivate can do to the store: nothing, or the removal of one
    Column entry from a list. *)
Lemma deactivate_effect W s :
  store (deactivate W s).2 = store s ∨
  ∃ l items i x,
    store s !! l = Some (OList items) ∧
    items !! i = Some x ∧ is_column_entry x = true ∧
    store (deactivate W s).2 = <[l := OList (delete i items)]> (store s).
Proof.
  destruct s as [h mw sp o]. simpl. run.
  repeat (case_step; run); simpl; auto.
  all: right.
  all: repeat match goal with
       | H : py_list _ _ = Some _ |- _ => apply py_list_some in H as [-> H]
       | H : find_column_entry 0 _ = Some _ |- _ =>
           apply find_column_entry_some in H as (pre & x & post & -> & -> & Hx & _)
       end.
  all: simplify_eq.
  all: eexists _, _, _, x; split_and!; [done| |done|done].
  all: by rewrite lookup_app_r, Nat.sub_diag by done.
Qed.

Lemma last_cons_nonempty {A} (x : A) l y : last l = Some y → last (x :: l) = Some y.
Proof. intros H. by rewrite last_cons, H. Qed.

(* taking a tuple out of a list that ends in a callable leaves its end *)
Lemma last_delete_entry h items i x f :
  items !! i = Some x → is_column_entry x = true →
  last items = Some f → py_callable h f = true →
  last (delete i items) = Some f.
Proof.
  intros Hi Hx Hlast Hf.
  rewrite <-(take_drop_middle items i x Hi) in Hlast.
  rewrite delete_take_drop.
  rewrite last_app in Hlast. rewrite last_app.
  destruct (drop (S i) items) as [|y rest] eqn:E.
  - simpl in Hlast. injection Hlast as ->.
    destruct f as [| | | |lf]; done.
  - rewrite !last_cons in Hlast. rewrite last_cons.
    by destruct (last rest).
Qed.

(** C10: a list of the store that ends in a callable still ends in that
    callable after register() and after deactivate(): register() only
    inserts at index 0, deactivate() only removes a tuple. *)
Theorem trailing_callable_preserved W s l items f :
  store s !! l = Some (OList items) →
  last items = Some f → py_callable (store s) f = true →
  (∃ items',
     store (register W s).2 !! l = Some (OList items') ∧
     last items' = Some f ∧ py_callable (store (register W s).2) f = true) ∧
  (∃ items',
     store (deactivate W s).2 !! l = Some (OList items') ∧
     last items' = Some f ∧ py_callable (store (deactivate W s).2) f = true).
Proof.
  intros Hl Hlast Hf. split.
  - destruct (register_effect W s) as [->|(l0 & items0 & x & Hl0 & ->)]; [eauto|].
    rewrite (py_callable_update _ _ _ _ Hl0), Hf.
    destruct (decide (l0 = l)) as [->|Hne].
    + rewrite lookup_insert_eq. simplify_eq.
      eexists. split_and!; [done| |done]. by apply last_cons_nonempty.
    + rewrite lookup_insert_ne by done. eauto.
  - destruct (deactivate_effect W s)
      as [->|(l0 & items0 & i & x & Hl0 & Hi & Hx & ->)]; [eauto|].
    rewrite (py_callable_update _ _ _ _ Hl0), Hf.
    destruct (decide (l0 = l)) as [->|Hne].
    + rewrite lookup_insert_eq. simplify_eq.
      eexists. split_and!; [done| |done]. by eapply last_delete_entry.
    + rewrite lookup_insert_ne by done. eauto.
Qed.

Lemma finds_hasattr h page name button :
  finds h page name button → hasattr h page "findChild" = true.
Proof.
  intros (lf & f & Hg & _). unfold getattr in Hg. unfold hasattr.
  destruct (py_instance h page) as [i|]; [|done].
  destruct (attrs i !! "findChild") eqn:E; [|done].
  apply bool_decide_eq_true. eauto.
Qed.

(** C9: on a Compression Member page (the Strut_Design button is found)
    where no Column_Design button is found, the page step of deactivate()
    raises nothing and asks the toolkit for nothing but the three lookups:
    no widget is removed or deleted. *)
Theorem deactivate_page_without_column_button h stack i page strut o :
  page_at h stack i page →
  finds h page "Strut_Design" strut → strut ≠ VNone →
  finds h page "Column_Design" VNone →
  ∃ o',
    deactivate_page h stack i o = (Ret None, o') ∧
    host_calls o' =
      host_calls o ++
      [Call stack "widget" [VInt (Z.of_nat i)];
       Call page "findChild" [VStr "QRadioButton"; VStr "Strut_Design"];
       Call page "findChild" [VStr "QRadioButton"; VStr "Column_Design"]] ∧
    Forall (λ c, is_removal c = false) (drop (length (host_calls o)) (host_calls o')).
Proof.
  intros (lw & fw & Hw & Hlw & Hpage) Hstrut Hne Hcol.
  pose proof (finds_hasattr _ _ _ _ Hstrut) as Hhas.
  destruct Hstrut as (lf & find & Hf & Hlf & Hs).
  destruct Hcol as (lf' & find' & Hf' & Hlf' & Hc).
  rewrite Hf in Hf'. injection Hf' as <-. rewrite Hlf in Hlf'. injection Hlf' as <-.
  assert (Hpne : py_is_none page = false).
  { destruct page; try done. }
  assert (Hsne : py_is_none strut = false) by (by destruct strut).
  unfold deactivate_page, remove_column_widget. grun.
  rewrite Hw. grun. rewrite Hlw, Hpage. grun. rewrite Hpne, Hhas. grun.
  rewrite Hf. grun. rewrite Hlf, Hs. grun. rewrite Hsne. grun.
  rewrite Hc. grun.
  eexists. split; [done|]. simpl. rewrite <-!app_assoc. split; [done|].
  rewrite drop_app_length. repeat constructor.
Qed.

(** C2 (failing input): when no top-level window exists and main_win is
    None, register() and deactivate() do not return: the recursive search
    calls children() on None and the AttributeError reaches the caller. *)
Theorem entry_points_raise_without_window W s :
  top_level W = [] → main_win s = VNone →
  (register W s).1 = Raise (AttributeError "children") ∧
  (deactivate W s).1 = Raise (AttributeError "children").
Proof.
  destruct W as [tops img pd pr ic isw], s as [h mw sp o]. simpl.
  intros -> ->. split; run; reflexivity.
Qed.

(** ** The search never runs out of fuel *)





(** ** The sample host *)




(* on the cyclic graph the search answers the object 23 *)
Example ex_graph_search :
  _find_modules_dict ex_graph (VRef 20) = Ret (VRef 23, VRef 3) ∧
  (fst <$> dfs_order (S (size ex_graph)) ex_graph 20 ∅) = Some [20; 21; 23; 22].
Proof. split; vm_compute; reflexivity. Qed.

Lemma ex_registry : registry_at ex_world ex_state 2.
Proof. exists (VRef 1). vm_compute. reflexivity. Defined.

Lemma ex_category : category_list ex_store 2 3 ex_items.
Proof.
  exists (list_to_map [("Compression Member", VRef 3)]).
  split_and!; vm_compute; reflexivity.
Defined.

Lemma ex_trailing : trailing_callable ex_store ex_items.
Proof. exists (VRef 4). split; vm_compute; reflexivity. Defined.

Lemma ex_well_formed : well_formed ex_store ex_items.
Proof.
  exists [ex_strut], (VRef 4). split_and!; [reflexivity| |vm_compute; reflexivity].
  constructor; [|constructor]. eexists _, _, _. reflexivity.
Defined.


Lemma register_twice_duplicates_witness :
  column_descriptor ex_entry ∧
  store (register ex_world (register ex_world ex_state).2).2 !! 3
  = Some (OList (ex_entry :: ex_entry :: ex_items)).
Proof.
  apply (register_twice_duplicates ex_world ex_state 2 3 ex_items
           ex_registry ex_category ex_well_formed).
Defined.

Lemma register_inserts_at_front_witness :
  store (register ex_world ex_state).2 !! 3
  = Some (OList (ex_entry :: ex_items)).
Proof.
  apply (register_inserts_at_front ex_world ex_state 2 3 ex_items
           ex_registry ex_category ex_trailing).
Defined.

(* C4 as stated fails: the descriptor is not put at the end *)
Lemma register_appends_counterexample :
  registry_at ex_world ex_state 2 ∧
  category_list (store ex_state) 2 3 ex_items ∧
  trailing_callable (store ex_state) ex_items ∧
  store (register ex_world ex_state).2 !! 3
  ≠ Some (OList (ex_items ++ [ex_entry])).
Proof.
  split_and!; [apply ex_registry|apply ex_category|apply ex_trailing|].
  vm_compute. discriminate.
Qed.



Lemma register_checks_handler_witness :
  (register ex_world ex_state_bare).1 = Ret tt ∧
  store (register ex_world ex_state_bare).2 = store ex_state_bare ∧
  last (stdout (out (register ex_world ex_state_bare).2))
  = Some (Line "Error: Compression Member module doesn't have a handler function" []).
Proof.
  apply (register_checks_handler ex_world ex_state_bare 2 3 [ex_strut] ex_strut).
  - exists (VRef 1). vm_compute. reflexivity.
  - exists (list_to_map [("Compression Member", VRef 3)]).
    split_and!; vm_compute; reflexivity.
  - reflexivity.
  - reflexivity.
Defined.

(* C7 as stated fails: without a trailing callable register leaves the
   list as it is *)
Lemma register_mutates_regardless_counterexample :
  registry_at ex_world ex_state_bare 2 ∧
  category_list (store ex_state_bare) 2 3 [ex_strut] ∧
  py_callable (store ex_state_bare) ex_strut = false ∧
  store (register ex_world ex_state_bare).2 !! 3 = Some (OList [ex_strut]).
Proof.
  split_and!.
  - exists (VRef 1). vm_compute. reflexivity.
  - exists (list_to_map [("Compression Member", VRef 3)]).
    split_and!; vm_compute; reflexivity.
  - reflexivity.
  - vm_compute. reflexivity.
Qed.

Lemma trailing_callable_preserved_witness :
  (∃ items',
     store (register ex_world ex_state).2 !! 3 = Some (OList items') ∧
     last items' = Some (VRef 4) ∧
     py_callable (store (register ex_world ex_state).2) (VRef 4) = true) ∧
  (∃ items',
     store (deactivate ex_world ex_state).2 !! 3 = Some (OList items') ∧
     last items' = Some (VRef 4) ∧
     py_callable (store (deactivate ex_world ex_state).2) (VRef 4) = true).
Proof.
  apply (trailing_callable_preserved ex_world ex_state 3 ex_items (VRef 4));
    vm_compute; reflexivity.
Defined.

Lemma deactivate_page_without_column_button_witness :
  ∃ o',
    deactivate_page ex_store (VRef 8) 0 ex_io = (Ret None, o') ∧
    host_calls o' =
      host_calls ex_io ++
      [Call (VRef 8) "widget" [VInt 0];
       Call (VRef 11) "findChild" [VStr "QRadioButton"; VStr "Strut_Design"];
       Call (VRef 11) "findChild" [VStr "QRadioButton"; VStr "Column_Design"]] ∧
    Forall (λ c, is_removal c = false)
           (drop (length (host_calls ex_io)) (host_calls o')).
Proof.
  apply (deactivate_page_without_column_button ex_store (VRef 8) 0 (VRef 11)
           (VRef 13) ex_io).
  - exists 10, (λ _, Ret (VRef 11)). split_and!; vm_compute; reflexivity.
  - exists 12, ex_find_child. split_and!; vm_compute; reflexivity.
  - discriminate.
  - exists 12, ex_find_child. split_and!; vm_compute; reflexivity.
Defined.

Lemma entry_points_raise_without_window_witness :
  (register ex_world_headless ex_state).1 = Raise (AttributeError "children") ∧
  (deactivate ex_world_headless ex_state).1 = Raise (AttributeError "children").
Proof.
  apply (entry_points_raise_without_window ex_world_headless ex_state);
    reflexivity.
Defined.

(* what register prints on the sample host *)
Example ex_register_output :
  (register ex_world ex_state).1 = Ret tt ∧
  map text (stdout (out (register ex_world ex_state).2)) =
  ["Registering {self.name} version {self.version} ({self.description})";
   "Found main window: {real_main_window}";
   "Found Modules dictionary in {modules_obj}";
   "Added Column module to Compression Member module:";
   "  - Entry: {column_entry}";
   "Successfully imported ColumnDesign class";
   "Attempting immediate UI update...";
   "Found page at index {i}: {page.__class__.__name__}";
   "Found Compression Member page at index {i}";
   "Could not find gridLayout in page";
   "Error in _update_live_ui: {e}";
   "Column Plugin activated! Column module added to Compression Member."].
Proof. split; vm_compute; reflexivity. Qed.

(* a deactivate that cannot close the module window raises before it
   reaches the registry: the entry register put in stays *)
Example ex_deactivate_stopped :
  (deactivate ex_world (register ex_world ex_state_open).2).1
  = Raise (AttributeError "close") ∧
  store (deactivate ex_world (register ex_world ex_state_open).2).2 !! 3
  = Some (OList (ex_entry :: ex_items)).
Proof. split; vm_compute; reflexivity. Qed.

(** * Further properties *)


(** ** Finding the main window *)

Lemma first_match_none {A B} (f : A → option B) l :
  first_match f l = None ↔ ∀ x, x ∈ l → f x = None.
Proof.
  induction l as [|x l IH]; simpl.
  - split; [|done]. intros _ x Hx. by apply elem_of_nil in Hx.
  - destruct (f x) eqn:E.
    + split; [done|]. intros H. specialize (H x ltac:(left)). congruence.
    + rewrite IH. split.
      * intros H y [->|Hy]%elem_of_cons; auto.
      * intros H y Hy. apply H. by right.
Qed.

Lemma hasattr_getattr h v name :
  hasattr h v name = true → ∃ a, getattr h v name = Ret a.
Proof.
  unfold hasattr, getattr. destruct (py_instance h v) as [i|]; [|done].
  intros [a Ha]%bool_decide_eq_true. rewrite Ha. eauto.
Qed.

Lemma getattr_hasattr h v name a :
  getattr h v name = Ret a → hasattr h v name = true.
Proof.
  unfold hasattr, getattr. destruct (py_instance h v) as [i|]; [|done].
  destruct (attrs i !! name) eqn:E; [|done]. intros _.
  apply bool_decide_eq_true. eauto.
Qed.

Lemma hasattr_is_ref h v name : hasattr h v name = true → ∃ l, v = VRef l.
Proof. unfold hasattr. destruct v; try done. eauto. Qed.

Lemma top_widget_match_none h w :
  top_widget_match h w = None ↔ ¬ exposes_registry h w.
Proof.
  unfold top_widget_match, exposes_registry.
  destruct (hasattr h (VRef w) "Modules") eqn:E1.
  { split; [done|]. intros H. destruct H. by left. }
  destruct (hasattr h (VRef w) "ui") eqn:E2.
  - destruct (hasattr_getattr _ _ _ E2) as [ui Hui]. rewrite Hui.
    destruct (hasattr h ui "Modules") eqn:E3.
    + split; [done|]. intros H. destruct H. right. eauto.
    + assert (Hno : ¬ (false = true ∨ ∃ ui0, Ret ui = Ret ui0 ∧ hasattr h ui0 "Modules" = true)).
      { intros [?|(ui0 & [= <-] & ?)]; congruence. }
      destruct (hasattr h ui "myStackedWidget"); done.
  - split; [|done]. intros _ [?|(ui & Hui & _)]; [done|].
    apply getattr_hasattr in Hui. congruence.
Qed.

(** X1: find_main_window() answers None exactly when no top-level widget has
    the attribute Modules, none has an attribute ui that has it, and none is
    of class OsdagMainWindow; the test on ui.myStackedWidget never adds a
    window. *)
Theorem find_main_window_none_iff h tops :
  find_main_window h tops = VNone ↔
  ∀ w, w ∈ tops →
    ¬ exposes_registry h w ∧ class_name h (VRef w) ≠ "OsdagMainWindow".
Proof.
  unfold find_main_window.
  destruct (first_match (top_widget_match h) tops) as [v|] eqn:E1.
  - apply first_match_some in E1 as (w & Hw & Hm). split.
    + intros ->. apply top_widget_match_exposes in Hm. done.
    + intros H. destruct (H w Hw) as [Hno _].
      apply top_widget_match_none in Hno. congruence.
  - rewrite first_match_none in E1.
    match goal with |- match ?a with _ => _ end = _ ↔ _ =>
      destruct a as [v|] eqn:E2 end.
    + apply first_match_some in E2 as (w & Hw & Hm).
      case_bool_decide as Hc; [|done]. injection Hm as <-. split; [done|].
      intros H. by destruct (H w Hw) as [_ []].
    + rewrite first_match_none in E2. split; [|done]. intros _ w Hw. split.
      * apply top_widget_match_none. auto.
      * specialize (E2 w Hw). simpl in E2. by case_bool_decide.
Qed.

(** X2: when some top-level widget gives access to the registry (by its own
    attribute Modules or through ui), find_main_window() answers an object
    that has the attribute Modules, wherever a window of class
    OsdagMainWindow stands in the list. *)
Theorem find_main_window_prefers_registry h tops w :
  w ∈ tops → exposes_registry h w →
  hasattr h (find_main_window h tops) "Modules" = true.
Proof.
  intros Hw Hx. unfold find_main_window.
  destruct (first_match (top_widget_match h) tops) as [v|] eqn:E1.
  - apply first_match_some in E1 as (w' & _ & Hm).
    by eapply top_widget_match_exposes.
  - rewrite first_match_none in E1. specialize (E1 w Hw).
    by apply top_widget_match_none in E1.
Qed.


(** ** What the registry search answers *)

Lemma with_modules_ret h v r :
  with_modules h v = Ret r → r = (v, r.2) ∧ getattr h v "Modules" = Ret r.2.
Proof.
  unfold with_modules. destruct (getattr h v "Modules"); [|done].
  by intros [= <-].
Qed.

Lemma search_children_answer h search l cs :
  (∀ c, c ∈ cs → child_of h l c) →
  (∀ c vis r vis', search (VRef c) vis = Some (Ret r, vis') → search_answer h c r) →
  ∀ vis r vis',
    search_children search cs vis = Some (Ret r, vis') → search_answer h l r.
Proof.
  intros Hcs Hs. induction cs as [|c rest IH]; intros vis r vis'; simpl.
  - intros [= <- _]. by left.
  - destruct (search (VRef c) vis) as [[[result|e] v1]|] eqn:E; [| done..].
    destruct (py_is_none result.1) eqn:Hn.
    + apply IH. intros c' Hc'. apply Hcs. by right.
    + intros [= <- <-]. destruct (Hs _ _ _ _ E) as [->|(x & m & -> & Hr & Hx & Hm)].
      * done.
      * right. exists x, m. split_and!; try done.
        eapply reach_step; [|done]. apply Hcs. by left.
Qed.

Lemma search_answer_sound h fuel : ∀ l vis r vis',
  search_for_modules fuel h (VRef l) vis = Some (Ret r, vis') →
  search_answer h l r.
Proof.
  induction fuel as [|fuel IH]; intros l vis r vis'; [done|]. simpl.
  destruct (decide (l ∈ vis)); [intros [= <- _]; by left|].
  destruct (hasattr h (VRef l) "Modules") eqn:Hx.
  { intros [= Hw _]. apply with_modules_ret in Hw as [-> Hm].
    right. exists l, r.2. split_and!; try done. apply reach_root. }
  destruct (children h (VRef l)) as [cs|e] eqn:Hc; [|done].
  apply (search_children_answer h (search_for_modules fuel h) l cs).
  - intros c Hin. by exists cs.
  - intros c vis0 r0 vis0'. apply IH.
Qed.

(** X3: what _find_modules_dict() returns is (None, None), or an object that
    has the attribute Modules together with the value of that attribute;
    the object is the window, its ui, or an object reachable from the
    window through children(). *)
Theorem find_modules_dict_sound h window_obj obj modules :
  _find_modules_dict h window_obj = Ret (obj, modules) →
  (obj = VNone ∧ modules = VNone) ∨
  (hasattr h obj "Modules" = true ∧
   getattr h obj "Modules" = Ret modules ∧
   (obj = window_obj ∨
    getattr h window_obj "ui" = Ret obj ∨
    ∃ root x, window_obj = VRef root ∧ obj = VRef x ∧ reach h root x)).
Proof.
  unfold _find_modules_dict.
  destruct (hasattr h window_obj "Modules") eqn:H1.
  { intros [[= <-] Hm]%with_modules_ret. simpl in Hm. right. auto. }
  destruct (hasattr h window_obj "ui") eqn:H2.
  - destruct (getattr h window_obj "ui") as [ui|e] eqn:Hui; [|done].
    destruct (hasattr h ui "Modules") eqn:H3.
    { intros [[= <-] Hm]%with_modules_ret. simpl in Hm. right. auto. }
    destruct (search_for_modules (S (size h)) h window_obj ∅)
      as [[r vis]|] eqn:Hs; [|done].
    intros ->. destruct window_obj as [| | | |root]; try done.
    apply search_answer_sound in Hs as [[= -> ->]|(x & m & [= -> ->] & Hr & Hx & Hm)];
      [by left|]. right. split_and!; try done. right. right. eauto.
  - destruct (search_for_modules (S (size h)) h window_obj ∅)
      as [[r vis]|] eqn:Hs; [|done].
    intros ->. destruct window_obj as [| | | |root]; try done.
    apply search_answer_sound in Hs as [[= -> ->]|(x & m & [= -> ->] & Hr & Hx & Hm)];
      [by left|]. right. split_and!; try done. right. right. eauto.
Qed.

(** ** The live patch *)





(** ** What the entry points do to the plugin and to the interpreter *)

Lemma register_main_win W s :
  main_win (register W s).2 = real_window W (store s) (main_win s).
Proof.
  destruct s as [h mw sp o]. simpl. run.
  repeat (case_step; run); simpl; auto.
Qed.

Lemma deactivate_main_win W s : main_win (deactivate W s).2 = main_win s.
Proof.
  destruct s as [h mw sp o]. simpl. run.
  repeat (case_step; run); simpl; auto.
Qed.

Lemma real_window_idem W h mw :
  real_window W h (real_window W h mw) = real_window W h mw.
Proof.
  unfold real_window.
  by destruct (negb (py_truthy h (find_main_window h (top_level W)))).
Qed.

Lemma real_window_after_register W s :
  real_window W (store (register W s).2) (main_win (register W s).2)
  = real_window W (store s) (main_win s).
Proof.
  rewrite register_main_win.
  destruct (register_effect W s) as [->|(l & items & x & Hl & ->)].
  - apply real_window_idem.
  - rewrite (real_window_update _ _ _ _ Hl). apply real_window_idem.
Qed.

Lemma real_window_after_deactivate W s :
  real_window W (store (deactivate W s).2) (main_win (deactivate W s).2)
  = real_window W (store s) (main_win s).
Proof.
  rewrite deactivate_main_win.
  destruct (deactivate_effect W s) as [->|(l & items & i & x & Hl & _ & _ & ->)];
    [done|].
  by rewrite (real_window_update _ _ _ _ Hl).
Qed.

(** X6: register() stores in self.main_win the window it worked on, on every
    path, and the entry points called afterwards work on that same window. *)
Theorem register_records_window W s :
  main_win (register W s).2 = real_window W (store s) (main_win s) ∧
  real_window W (store (register W s).2) (main_win (register W s).2)
  = real_window W (store s) (main_win s).
Proof. split; [apply register_main_win|apply real_window_after_register]. Qed.

(** X7: register() leaves sys.path as it is, or, only when it returns
    normally, appends the plugin root that was not yet in it. *)
Theorem register_sys_path W s :
  sys_path (register W s).2 = sys_path s ∨
  ((register W s).1 = Ret tt ∧
   (plugin_root W ∉ sys_path s) ∧
   sys_path (register W s).2 = sys_path s ++ [plugin_root W]).
Proof.
  destruct s as [h mw sp o]. simpl. run.
  repeat (case_step; run); simpl; auto.
  all: right; split_and!; try done.
  all: match goal with H : bool_decide _ = false |- _ =>
         by apply bool_decide_eq_false in H end.
Qed.

(** X8: deactivate() changes neither self.main_win nor sys.path. *)
Theorem deactivate_keeps_plugin_state W s :
  main_win (deactivate W s).2 = main_win s ∧
  sys_path (deactivate W s).2 = sys_path s.
Proof.
  destruct s as [h mw sp o]. simpl. run.
  repeat (case_step; run); simpl; auto.
Qed.

Lemma registry_at_register W s d :
  registry_at W s d → registry_at W (register W s).2 d.
Proof.
  intros [mo Hfind]. exists mo. rewrite real_window_after_register.
  destruct (register_effect W s) as [->|(l & items & x & Hl & ->)]; [done|].
  by rewrite (find_modules_dict_update _ _ _ _ Hl).
Qed.

Lemma registry_at_deactivate W s d :
  registry_at W s d → registry_at W (deactivate W s).2 d.
Proof.
  intros [mo Hfind]. exists mo. rewrite real_window_after_deactivate.
  destruct (deactivate_effect W s) as [->|(l & items & i & x & Hl & _ & _ & ->)];
    [done|].
  by rewrite (find_modules_dict_update _ _ _ _ Hl).
Qed.

(** X9: a registry that the entry points locate is located again after
    register() and after deactivate(), whatever their outcome. *)
Theorem registry_found_again W s d :
  registry_at W s d →
  registry_at W (register W s).2 d ∧ registry_at W (deactivate W s).2 d.
Proof.
  intros Hreg. split; [by apply registry_at_register|by apply registry_at_deactivate].
Qed.


(** ** Registration: how it ends, and the registry it does not understand *)



Lemma missing_truthy h d entries :
  h !! d = Some (ODict entries) →
  py_truthy h (VRef d) = negb (is_nil (map_to_list entries)).
Proof. intros Hd. simpl. by rewrite Hd. Qed.

Lemma missing_contains h d entries :
  h !! d = Some (ODict entries) → entries !! "Compression Member" = None →
  py_contains h "Compression Member" (VRef d) = Ret false.
Proof.
  intros Hd Hk. simpl. rewrite Hd, bool_decide_eq_false_2; [done|].
  rewrite Hk. by intros [? ?].
Qed.

Lemma value_truthy h d v : category_value h d v → py_truthy h (VRef d) = true.
Proof.
  intros (entries & Hd & Hk). simpl. rewrite Hd.
  destruct (map_to_list entries) eqn:E; [|done].
  apply map_to_list_empty_iff in E. subst. by rewrite lookup_empty in Hk.
Qed.

Lemma value_contains h d v :
  category_value h d v → py_contains h "Compression Member" (VRef d) = Ret true.
Proof.
  intros (entries & Hd & Hk). simpl. rewrite Hd.
  f_equal. apply bool_decide_eq_true. eauto.
Qed.

Lemma value_getitem h d v :
  category_value h d v → py_getitem h (VRef d) "Compression Member" = Ret v.
Proof. intros (entries & Hd & Hk). simpl. by rewrite Hd, Hk. Qed.

(** X11: on a registry without the key 'Compression Member' register()
    returns normally, leaves the store unchanged and prints an error line. *)
Theorem register_without_category W s d :
  registry_at W s d → category_missing (store s) d →
  (register W s).1 = Ret tt ∧
  store (register W s).2 = store s ∧
  ∃ new, stdout (out (register W s).2) = stdout (out s) ++ new ∧
         Exists (λ ln, is_error_line ln = true) new.
Proof.
  intros [mo Hfind] (entries & Hd & Hk). destruct s as [h mw sp o]. simpl in *.
  run.
  destruct (negb (py_truthy h (find_main_window h (top_level W)))); run;
  rewrite Hfind; run; rewrite (missing_truthy _ _ _ Hd);
  (destruct (map_to_list entries) eqn:E; cbn [negb is_nil]; run;
   [destruct (hasattr h (real_window W h mw) "ui") eqn:Hui; run;
    [destruct (hasattr_getattr _ _ _ Hui) as [ui ->]; run|]
   |rewrite (missing_contains _ _ _ Hd Hk); run;
    unfold py_keys; rewrite Hd; run]).
  all: split; [done|]; split; [done|]; simpl; rewrite <-?app_assoc;
    eexists; split; [done|].
  all: simpl; repeat first [apply Exists_cons_hd; reflexivity | apply Exists_cons_tl].
Qed.

(** X12: when 'Compression Member' maps to something that is not a list (a
    leaf handler), register() returns normally, changes nothing and ends by
    printing the type it found; deactivate() changes nothing either. *)
Theorem category_not_a_list W s d v :
  registry_at W s d → category_value (store s) d v →
  py_list (store s) v = None →
  ((register W s).1 = Ret tt ∧
   store (register W s).2 = store s ∧
   last (stdout (out (register W s).2))
   = Some (Line "Error: Compression Member module is not a list (got {type(compression_module)})"
                [AStr (class_name (store s) v)])) ∧
  store (deactivate W s).2 = store s.
Proof.
  intros [mo Hfind] Hv Hnl. destruct s as [h mw sp o]. simpl in *. split.
  - run.
    destruct (negb (py_truthy h (find_main_window h (top_level W)))); run;
    rewrite Hfind; run; rewrite (value_truthy _ _ _ Hv); run;
    rewrite (value_contains _ _ _ Hv); run; rewrite (value_getitem _ _ _ Hv); run;
    rewrite Hnl; run; simpl; by rewrite last_snoc.
  - run. case_inner; run. case_inner; run; [|done].
    rewrite Hfind; run; rewrite (value_truthy _ _ _ Hv); run;
    rewrite (value_contains _ _ _ Hv); run; rewrite (value_getitem _ _ _ Hv); run;
    rewrite Hnl; run. done.
Qed.

(** X13: on an empty 'Compression Member' list register() raises IndexError
    (it reads the last element) and changes nothing; deactivate() changes
    nothing. *)
Theorem register_on_empty_list W s d l :
  registry_at W s d → category_list (store s) d l [] →
  (register W s).1 = Raise IndexError ∧
  store (register W s).2 = store s ∧
  store (deactivate W s).2 = store s.
Proof.
  intros Hreg Hcat. split_and!.
  - destruct Hreg as [mo Hfind]. destruct s as [h mw sp o]. simpl in *. run.
    destruct (negb (py_truthy h (find_main_window h (top_level W)))); run;
    rewrite Hfind; run; rewrite (cat_truthy Hcat); run;
    rewrite (cat_contains Hcat); run; rewrite (cat_getitem Hcat); run;
    rewrite (cat_list Hcat); run; done.
  - destruct Hreg as [mo Hfind]. destruct s as [h mw sp o]. simpl in *. run.
    destruct (negb (py_truthy h (find_main_window h (top_level W)))); run;
    rewrite Hfind; run; rewrite (cat_truthy Hcat); run;
    rewrite (cat_contains Hcat); run; rewrite (cat_getitem Hcat); run;
    rewrite (cat_list Hcat); run; done.
  - destruct (deactivate_run W s d l [] Hreg Hcat)
      as (e & sp' & o' & [->|[r' ->]]); [done|].
    simpl. apply insert_id. by destruct Hcat as (? & _ & _ & ?).
Qed.

(* one registration, as a step from a state in which the registry is
   found to another one *)
Lemma register_step W s d l items :
  registry_at W s d → category_list (store s) d l items →
  trailing_callable (store s) items →
  registry_at W (register W s).2 d ∧
  store (register W s).2
  = <[l := OList (column_entry (image_path W) :: items)]> (store s) ∧
  category_list (store (register W s).2) d l (column_entry (image_path W) :: items) ∧
  trailing_callable (store (register W s).2) (column_entry (image_path W) :: items).
Proof.
  intros Hreg Hcat Hwf. split; [by apply registry_at_register|].
  pose proof Hcat as (entries & _ & _ & Hl).
  destruct (register_run W s d l items Hreg Hcat Hwf) as (r & sp & o & ->).
  simpl. split_and!; [done|by eapply cat_update|].
  eapply trailing_callable_update; [done|]. by apply trailing_callable_cons.
Qed.

(* one deactivation that returns, as such a step *)
Lemma deactivate_step W s d l items :
  registry_at W s d → category_list (store s) d l items →
  (deactivate W s).1 = Ret tt →
  registry_at W (deactivate W s).2 d ∧
  store (deactivate W s).2 = <[l := OList (remove_column items)]> (store s) ∧
  category_list (store (deactivate W s).2) d l (remove_column items).
Proof.
  intros Hreg Hcat Hret. split; [by apply registry_at_deactivate|].
  destruct (deactivate_run W s d l items Hreg Hcat)
    as (e & sp & o & [E|[r E]]); rewrite E in *; [done|].
  simpl. split; [done|]. by eapply cat_update.
Qed.

(** X14: after two registrations one deactivate() that returns leaves one
    Column entry in front of the original list, and a second one that
    returns brings the list and the store back. *)
Theorem double_registration_needs_two_deactivations W s d l items :
  registry_at W s d → category_list (store s) d l items →
  well_formed (store s) items →
  let entry := column_entry (image_path W) in
  let s2 := (register W (register W s).2).2 in
  let s3 := (deactivate W s2).2 in
  (deactivate W s2).1 = Ret tt →
  store s3 !! l = Some (OList (entry :: items)) ∧
  ((deactivate W s3).1 = Ret tt →
   store (deactivate W s3).2 !! l = Some (OList items) ∧
   store (deactivate W s3).2 = store s).
Proof.
  intros Hreg Hcat Hwf%well_formed_trailing entry s2 s3 Hret2.
  subst s3 s2.
  pose proof Hcat as (entries & _ & _ & Hl).
  destruct (register_step W s d l items Hreg Hcat Hwf) as (Hreg1 & E1 & Hcat1 & Hwf1).
  destruct (register_step W _ d l _ Hreg1 Hcat1 Hwf1) as (Hreg2 & E2 & Hcat2 & _).
  destruct (deactivate_step W _ d l _ Hreg2 Hcat2 Hret2) as (Hreg3 & E3 & Hcat3).
  change (remove_column _) with (entry :: items) in E3, Hcat3.
  split; [rewrite E3; apply lookup_insert_eq|].
  intros Hret3.
  destruct (deactivate_step W _ d l _ Hreg3 Hcat3 Hret3) as (_ & E4 & _).
  change (remove_column _) with items in E4.
  rewrite E4, E3, E2, E1, !insert_insert_eq, lookup_insert_eq.
  split; [done|]. by apply insert_id.
Qed.


(** ** Taking the Column widget out of the page *)

Lemma method_returns_call h recv name args result o :
  method_returns h recv name args result →
  call_method h recv name args o
  = (Ret result, IO (stdout o) (stderr o) (host_calls o ++ [Call recv name args])).
Proof.
  intros (l & call & Hg & Hl & Hc).
  unfold call_method, invoke, mbind, G_bind, g_lift. by rewrite Hg, Hl, Hc.
Qed.

Lemma method_raises_call h recv name args e o :
  method_raises h recv name args e →
  call_method h recv name args o
  = (Raise e, IO (stdout o) (stderr o) (host_calls o ++ [Call recv name args])).
Proof.
  intros (l & call & Hg & Hl & Hc).
  unfold call_method, invoke, mbind, G_bind, g_lift. by rewrite Hg, Hl, Hc.
Qed.

Lemma get_path_has_path h v a b r :
  get_path h v a b = Ret r → has_path h v a b = true.
Proof.
  unfold get_path, has_path. destruct (getattr h v a) as [u|] eqn:E; [|done].
  intros Hb. by rewrite (getattr_hasattr _ _ _ _ E), (getattr_hasattr _ _ _ _ Hb).
Qed.

Lemma page_at_returns h stack i page :
  page_at h stack i page →
  method_returns h stack "widget" [VInt (Z.of_nat i)] page.
Proof. done. Qed.

Lemma finds_returns h page name button :
  finds h page name button →
  method_returns h page "findChild" [VStr "QRadioButton"; VStr name] button.
Proof. done. Qed.

Ltac gstep :=
  cbv beta iota zeta delta [mbind G_bind mret G_ret g_lift print];
  cbn [stdout stderr host_calls fst snd negb andb].

(** X15: on a Compression Member page whose Column_Design button has a
    parent widget and whose ui has a gridLayout, the page step of
    deactivate() asks for the parent, takes that widget out of the grid
    layout and then schedules its deletion, in this order, and returns. *)
Theorem deactivate_page_removes_column_widget
    h stack i page strut button widget grid r1 r2 o :
  page_at h stack i page →
  finds h page "Strut_Design" strut → strut ≠ VNone →
  finds h page "Column_Design" button → button ≠ VNone →
  method_returns h button "parent" [] widget → widget ≠ VNone →
  get_path h page "ui" "gridLayout" = Ret grid →
  method_returns h grid "removeWidget" [widget] r1 →
  method_returns h widget "deleteLater" [] r2 →
  ∃ o',
    deactivate_page h stack i o = (Ret None, o') ∧
    host_calls o' =
      host_calls o ++
      [Call stack "widget" [VInt (Z.of_nat i)];
       Call page "findChild" [VStr "QRadioButton"; VStr "Strut_Design"];
       Call page "findChild" [VStr "QRadioButton"; VStr "Column_Design"];
       Call button "parent" [];
       Call grid "removeWidget" [widget];
       Call widget "deleteLater" []] ∧
    stdout o' =
      stdout o ++
      [Line "Found Compression Member page at index {i}" [ANat i];
       Line "Removing Column button widget" []].
Proof.
  intros Hpage Hstrut Hs Hcol Hb Hparent Hw Hgrid Hrm Hdel.
  pose proof (finds_hasattr _ _ _ _ Hstrut) as Hhas.
  assert (py_is_none page = false) as Hpn.
  { destruct page; try done. }
  assert (py_is_none strut = false) as Hsn by by destruct strut.
  assert (py_is_none button = false) as Hbn by by destruct button.
  assert (py_is_none widget = false) as Hwn by by destruct widget.
  unfold deactivate_page, remove_column_widget. gstep.
  rewrite (method_returns_call _ _ _ _ _ _ (page_at_returns _ _ _ _ Hpage)). gstep.
  rewrite Hpn, Hhas. gstep.
  rewrite (method_returns_call _ _ _ _ _ _ (finds_returns _ _ _ _ Hstrut)). gstep.
  rewrite Hsn. gstep.
  rewrite (method_returns_call _ _ _ _ _ _ (finds_returns _ _ _ _ Hcol)). gstep.
  rewrite Hbn. gstep.
  rewrite (method_returns_call _ _ _ _ _ _ Hparent). gstep.
  rewrite Hwn. gstep.
  rewrite (get_path_has_path _ _ _ _ _ Hgrid), Hgrid. gstep.
  rewrite (method_returns_call _ _ _ _ _ _ Hrm). gstep.
  rewrite (method_returns_call _ _ _ _ _ _ Hdel). gstep.
  eexists. split; [done|]. simpl. rewrite <-!app_assoc. done.
Qed.

(** X16: on such a page without ui.gridLayout the page step of deactivate()
    removes and deletes nothing, and ends by printing that the grid layout
    could not be found. *)
Theorem deactivate_page_without_grid_layout
    h stack i page strut button widget o :
  page_at h stack i page →
  finds h page "Strut_Design" strut → strut ≠ VNone →
  finds h page "Column_Design" button → button ≠ VNone →
  method_returns h button "parent" [] widget → widget ≠ VNone →
  has_path h page "ui" "gridLayout" = false →
  ∃ o',
    deactivate_page h stack i o = (Ret None, o') ∧
    Forall (λ c, is_removal c = false)
           (drop (length (host_calls o)) (host_calls o')) ∧
    last (stdout o') = Some (Line "Could not find gridLayout in page" []).
Proof.
  intros Hpage Hstrut Hs Hcol Hb Hparent Hw Hgrid.
  pose proof (finds_hasattr _ _ _ _ Hstrut) as Hhas.
  assert (py_is_none page = false) as Hpn.
  { destruct page; try done. }
  assert (py_is_none strut = false) as Hsn by by destruct strut.
  assert (py_is_none button = false) as Hbn by by destruct button.
  assert (py_is_none widget = false) as Hwn by by destruct widget.
  unfold deactivate_page, remove_column_widget. gstep.
  rewrite (method_returns_call _ _ _ _ _ _ (page_at_returns _ _ _ _ Hpage)). gstep.
  rewrite Hpn, Hhas. gstep.
  rewrite (method_returns_call _ _ _ _ _ _ (finds_returns _ _ _ _ Hstrut)). gstep.
  rewrite Hsn. gstep.
  rewrite (method_returns_call _ _ _ _ _ _ (finds_returns _ _ _ _ Hcol)). gstep.
  rewrite Hbn. gstep.
  rewrite (method_returns_call _ _ _ _ _ _ Hparent). gstep.
  rewrite Hwn. gstep. rewrite Hgrid. gstep.
  eexists. split; [done|]. simpl. split.
  - rewrite <-!app_assoc, drop_app_length. repeat constructor.
  - apply last_snoc.
Qed.

(** ** Launching the module *)

Lemma getattr_truthy h v name a : getattr h v name = Ret a → py_truthy h v = true.
Proof.
  unfold getattr, py_instance. destruct v as [| | | |l]; try done. simpl.
  by destruct (h !! l) as [[]|].
Qed.

Lemma method_returns_truthy h recv name args r :
  method_returns h recv name args r → py_truthy h recv = true.
Proof. intros (l & call & Hg & _). by eapply getattr_truthy. Qed.

(** X17: when one of its imports fails, show_column_module() raises before
    it prints or calls anything, whether main_win is set or not. *)
Theorem show_column_module_import_failure L h main_win o :
  ¬ imports_ok L →
  ∃ e, show_column_module L h main_win o = (Raise e, o).
Proof.
  intros Hno. unfold show_column_module, g_raise. gstep.
  destruct (import_ui_template L) as [e|] eqn:E1; [eauto|].
  destruct (import_Ui_ModuleWindow L) as [c|e] eqn:E2; gstep; [|eauto].
  destruct (import_Column L) as [cd|e] eqn:E3; gstep; [|eauto].
  destruct Hno. unfold imports_ok. rewrite E1, E2, E3. eauto.
Qed.

(** X18: with main_win unset (None or any false value) show_column_module()
    prints that it cannot launch and calls nothing. *)
Theorem show_column_module_without_window L h main_win o :
  imports_ok L → py_truthy h main_win = false →
  show_column_module L h main_win o
  = (Ret tt,
     IO (stdout o ++ [Line "Cannot launch column module: main_win not set" []])
        (stderr o) (host_calls o)).
Proof.
  intros (E1 & [c E2] & [cd E3]) Hf. unfold show_column_module. gstep.
  rewrite E1, E2, E3. gstep. by rewrite Hf.
Qed.

(** X19: on success show_column_module() hides the main window, builds the
    module window from ColumnDesign and ' ', shows it, and connects its
    closed signal to the show method of the main window, in this order. *)
Theorem show_column_module_launches
    L h main_win cls lc ctor column ui2 closed show r0 r1 r2 o :
  import_ui_template L = None →
  import_Ui_ModuleWindow L = Ret cls → import_Column L = Ret column →
  method_returns h main_win "hide" [] r0 →
  cls = VRef lc → h !! lc = Some (OFunc ctor) →
  ctor [column; VStr " "] = Ret ui2 →
  method_returns h ui2 "show" [] r1 →
  getattr h ui2 "closed" = Ret closed →
  getattr h main_win "show" = Ret show →
  method_returns h closed "connect" [show] r2 →
  show_column_module L h main_win o
  = (Ret tt,
     IO (stdout o) (stderr o)
        (host_calls o ++
         [Call main_win "hide" [];
          Call cls "" [column; VStr " "];
          Call ui2 "show" [];
          Call closed "connect" [show]])).
Proof.
  intros E1 E2 E3 Hhide -> Hlc Hctor Hshow Hclosed Hmshow (l & call & Hg & Hl & Hc).
  unfold show_column_module. gstep. rewrite E1, E2, E3. gstep.
  rewrite (method_returns_truthy _ _ _ _ _ Hhide).
  rewrite (method_returns_call _ _ _ _ _ _ Hhide). gstep.
  unfold invoke at 1. rewrite Hlc, Hctor. gstep.
  rewrite (method_returns_call _ _ _ _ _ _ Hshow). gstep.
  rewrite Hclosed. gstep. rewrite Hg. gstep. rewrite Hmshow. gstep.
  unfold invoke. rewrite Hl, Hc. simpl. by rewrite <-!app_assoc.
Qed.

(** X20: when building the module window raises, show_column_module() has
    hidden the main window and raises without showing it again. *)
Theorem show_column_module_stays_hidden
    L h main_win cls lc ctor column e r0 o :
  import_ui_template L = None →
  import_Ui_ModuleWindow L = Ret cls → import_Column L = Ret column →
  method_returns h main_win "hide" [] r0 →
  cls = VRef lc → h !! lc = Some (OFunc ctor) →
  ctor [column; VStr " "] = Raise e →
  show_column_module L h main_win o
  = (Raise e,
     IO (stdout o) (stderr o)
        (host_calls o ++
         [Call main_win "hide" []; Call cls "" [column; VStr " "]])).
Proof.
  intros E1 E2 E3 Hhide -> Hlc Hctor.
  unfold show_column_module. gstep. rewrite E1, E2, E3. gstep.
  rewrite (method_returns_truthy _ _ _ _ _ Hhide).
  rewrite (method_returns_call _ _ _ _ _ _ Hhide). gstep.
  unfold invoke at 1. rewrite Hlc, Hctor. gstep. simpl. by rewrite <-!app_assoc.
Qed.


(** ** What the entry points leave alone *)




(** ** The further properties on the sample hosts *)

Lemma find_main_window_prefers_registry_witness :
  hasattr ex_store (find_main_window ex_store [13; 1]) "Modules" = true.
Proof.
  apply (find_main_window_prefers_registry ex_store [13; 1] 1).
  - vm_compute. right. left.
  - left. vm_compute. reflexivity.
Defined.

Lemma find_modules_dict_sound_witness :
  (VRef 23 = VNone ∧ VRef 3 = VNone) ∨
  (hasattr ex_graph (VRef 23) "Modules" = true ∧
   getattr ex_graph (VRef 23) "Modules" = Ret (VRef 3) ∧
   (VRef 23 = VRef 20 ∨
    getattr ex_graph (VRef 20) "ui" = Ret (VRef 23) ∨
    ∃ root x, VRef 20 = VRef root ∧ VRef 23 = VRef x ∧ reach ex_graph root x)).
Proof.
  apply (find_modules_dict_sound ex_graph (VRef 20) (VRef 23) (VRef 3)).
  vm_compute. reflexivity.
Defined.


Lemma registry_found_again_witness :
  registry_at ex_world (register ex_world ex_state).2 2 ∧
  registry_at ex_world (deactivate ex_world ex_state).2 2.
Proof. apply (registry_found_again ex_world ex_state 2 ex_registry). Defined.


Lemma register_without_category_witness :
  (register ex_world ex_state_other).1 = Ret tt ∧
  store (register ex_world ex_state_other).2 = store ex_state_other ∧
  ∃ new, stdout (out (register ex_world ex_state_other).2)
         = stdout (out ex_state_other) ++ new ∧
         Exists (λ ln, is_error_line ln = true) new.
Proof.
  apply (register_without_category ex_world ex_state_other 2).
  - exists (VRef 1). vm_compute. reflexivity.
  - exists (list_to_map [("Tension Member", VRef 3)]).
    split; vm_compute; reflexivity.
Defined.

Lemma category_not_a_list_witness :
  ((register ex_world ex_state_leaf).1 = Ret tt ∧
   store (register ex_world ex_state_leaf).2 = store ex_state_leaf ∧
   last (stdout (out (register ex_world ex_state_leaf).2))
   = Some (Line "Error: Compression Member module is not a list (got {type(compression_module)})"
                [AStr (class_name (store ex_state_leaf) (VRef 4))])) ∧
  store (deactivate ex_world ex_state_leaf).2 = store ex_state_leaf.
Proof.
  apply (category_not_a_list ex_world ex_state_leaf 2 (VRef 4)).
  - exists (VRef 1). vm_compute. reflexivity.
  - exists (list_to_map [("Compression Member", VRef 4)]).
    split; vm_compute; reflexivity.
  - vm_compute. reflexivity.
Defined.

Lemma register_on_empty_list_witness :
  (register ex_world ex_state_empty).1 = Raise IndexError ∧
  store (register ex_world ex_state_empty).2 = store ex_state_empty ∧
  store (deactivate ex_world ex_state_empty).2 = store ex_state_empty.
Proof.
  apply (register_on_empty_list ex_world ex_state_empty 2 3).
  - exists (VRef 1). vm_compute. reflexivity.
  - exists (list_to_map [("Compression Member", VRef 3)]).
    split_and!; vm_compute; reflexivity.
Defined.

Lemma double_registration_needs_two_deactivations_witness :
  store (deactivate ex_world
           (register ex_world (register ex_world ex_state).2).2).2 !! 3
  = Some (OList (ex_entry :: ex_items)) ∧
  ((deactivate ex_world
      (deactivate ex_world
         (register ex_world (register ex_world ex_state).2).2).2).1 = Ret tt →
   store (deactivate ex_world
            (deactivate ex_world
               (register ex_world (register ex_world ex_state).2).2).2).2 !! 3
   = Some (OList ex_items) ∧
   store (deactivate ex_world
            (deactivate ex_world
               (register ex_world (register ex_world ex_state).2).2).2).2
   = store ex_state).
Proof.
  apply (double_registration_needs_two_deactivations ex_world ex_state 2 3 ex_items
           ex_registry ex_category ex_well_formed).
  vm_compute. reflexivity.
Defined.

Lemma deactivate_page_removes_column_widget_witness :
  ∃ o',
    deactivate_page ex_patched (VRef 30) 0 ex_io = (Ret None, o') ∧
    host_calls o' =
      host_calls ex_io ++
      [Call (VRef 30) "widget" [VInt 0];
       Call (VRef 31) "findChild" [VStr "QRadioButton"; VStr "Strut_Design"];
       Call (VRef 31) "findChild" [VStr "QRadioButton"; VStr "Column_Design"];
       Call (VRef 34) "parent" [];
       Call (VRef 37) "removeWidget" [VRef 35];
       Call (VRef 35) "deleteLater" []] ∧
    stdout o' =
      stdout ex_io ++
      [Line "Found Compression Member page at index {i}" [ANat 0];
       Line "Removing Column button widget" []].
Proof.
  apply (deactivate_page_removes_column_widget ex_patched (VRef 30) 0 (VRef 31)
           (VRef 33) (VRef 34) (VRef 35) (VRef 37) VNone VNone ex_io).
  - exists 39, ex_pages. split_and!; vm_compute; reflexivity.
  - exists 32, ex_find_both. split_and!; vm_compute; reflexivity.
  - discriminate.
  - exists 32, ex_find_both. split_and!; vm_compute; reflexivity.
  - discriminate.
  - exists 40, (λ _, Ret (VRef 35)). split_and!; vm_compute; reflexivity.
  - discriminate.
  - vm_compute. reflexivity.
  - exists 4, (λ _, Ret VNone). split_and!; vm_compute; reflexivity.
  - exists 4, (λ _, Ret VNone). split_and!; vm_compute; reflexivity.
Defined.

Lemma deactivate_page_without_grid_layout_witness :
  ∃ o',
    deactivate_page ex_patched (VRef 30) 1 ex_io = (Ret None, o') ∧
    Forall (λ c, is_removal c = false)
           (drop (length (host_calls ex_io)) (host_calls o')) ∧
    last (stdout o') = Some (Line "Could not find gridLayout in page" []).
Proof.
  apply (deactivate_page_without_grid_layout ex_patched (VRef 30) 1 (VRef 41)
           (VRef 33) (VRef 34) (VRef 35) ex_io).
  - exists 39, ex_pages. split_and!; vm_compute; reflexivity.
  - exists 32, ex_find_both. split_and!; vm_compute; reflexivity.
  - discriminate.
  - exists 32, ex_find_both. split_and!; vm_compute; reflexivity.
  - discriminate.
  - exists 40, (λ _, Ret (VRef 35)). split_and!; vm_compute; reflexivity.
  - discriminate.
  - vm_compute. reflexivity.
Defined.

Lemma show_column_module_import_failure_witness :
  ∃ e, show_column_module ex_launcher_missing ex_launch (VRef 1) ex_io
       = (Raise e, ex_io).
Proof.
  apply (show_column_module_import_failure ex_launcher_missing ex_launch (VRef 1) ex_io).
  intros (_ & [c Hc] & _). discriminate Hc.
Defined.

Lemma show_column_module_without_window_witness :
  show_column_module ex_launcher ex_launch VNone ex_io
  = (Ret tt,
     IO (stdout ex_io ++ [Line "Cannot launch column module: main_win not set" []])
        (stderr ex_io) (host_calls ex_io)).
Proof.
  apply (show_column_module_without_window ex_launcher ex_launch VNone ex_io).
  - split_and!; [reflexivity|by eexists|by eexists].
  - reflexivity.
Defined.

Lemma show_column_module_launches_witness :
  show_column_module ex_launcher ex_launch (VRef 1) ex_io
  = (Ret tt,
     IO (stdout ex_io) (stderr ex_io)
        (host_calls ex_io ++
         [Call (VRef 1) "hide" [];
          Call (VRef 50) "" [VRef 51; VStr " "];
          Call (VRef 53) "show" [];
          Call (VRef 54) "connect" [VRef 5]])).
Proof.
  apply (show_column_module_launches ex_launcher ex_launch (VRef 1) (VRef 50) 50
           (λ _, Ret (VRef 53)) (VRef 51) (VRef 53) (VRef 54) (VRef 5)
           VNone VNone VNone ex_io); try reflexivity.
  - exists 4, (λ _, Ret VNone). split_and!; vm_compute; reflexivity.
  - exists 4, (λ _, Ret VNone). split_and!; vm_compute; reflexivity.
  - exists 4, (λ _, Ret VNone). split_and!; vm_compute; reflexivity.
Defined.

Lemma show_column_module_stays_hidden_witness :
  show_column_module ex_launcher_failing ex_launch (VRef 1) ex_io
  = (Raise (HostError "module window"),
     IO (stdout ex_io) (stderr ex_io)
        (host_calls ex_io ++
         [Call (VRef 1) "hide" []; Call (VRef 52) "" [VRef 51; VStr " "]])).
Proof.
  apply (show_column_module_stays_hidden ex_launcher_failing ex_launch (VRef 1)
           (VRef 52) 52 (λ _, Raise (HostError "module window")) (VRef 51)
           (HostError "module window") VNone ex_io); try reflexivity.
  exists 4, (λ _, Ret VNone). split_and!; vm_compute; reflexivity.
Defined.

